(** * maslibpy: the prompt-based reasoning loop

    A shallow embedding of [maslibpy/reasoning/prompt_based.py]
    (class [PromptBased]: [invoke], [update_chat_history], [generate],
    [grade], [critique]) and the properties of its generate / critique /
    grade loop.

    Conventions of the embedding.
    - Python [str] values are [string]s; [lower] and [strip] act on the
      ASCII range (every token the program looks for is ASCII).
    - Python objects the program inspects with [isinstance], [hasattr] or
      truthiness are values of [PyVal].
    - A Python function that mutates [agent.messages], calls a backend or
      raises is a computation in the monad [M]: a state transformer that
      returns [Ok v] or [Err e].  The state is kept on both outcomes, as a
      Python exception leaves the heap as it was when raised.
    - The language-model backend is outside the program: it is a field of
      the class [Environment], a transition function on an abstract
      [World].  The class [LLM] of [maslibpy/llm/llm.py] is one backend:
      its [invoke] takes the messages only, so the three-argument call of
      [generate] raises a [TypeError] there, which is a reply [BRaise].
    - [print] and the progress bar of [tqdm] are left out, but for the
      event [EEpoch] that marks each iteration [tqdm] hands to the loop;
      directory creation and the file write are logged and succeed.
    - The [query] a function receives is the caller's query object, a
      value built for the call, or the list [agent.messages] itself
      ([QueryArg]); in a run of [invoke] the caller's query is an object
      of its own. *)

From Stdlib Require Import String Ascii List ZArith Lia Bool Arith.
From Stdlib Require Import DecimalString.
Import ListNotations.

Open Scope string_scope.
Open Scope list_scope.

(* ================================================================= *)
(** ** Python strings *)


Definition nl : string := String (ascii_of_nat 10) EmptyString.
Definition dquote : string := String (ascii_of_nat 34) EmptyString.

(** [s[n:]] for a natural [n]. *)
Fixpoint drop (n : nat) (s : string) : string :=
  match n, s with
  | O, _ => s
  | S _, EmptyString => EmptyString
  | S n', String _ s' => drop n' s'
  end.

(** [sub in s]. *)
Fixpoint contains (sub s : string) : bool :=
  prefix sub s ||
  match s with
  | EmptyString => false
  | String _ s' => contains sub s'
  end.

(** [s.rfind(sub)]: the highest index at which [sub] starts. *)
Fixpoint rfind_nat (sub s : string) : option nat :=
  match s with
  | EmptyString => if prefix sub s then Some 0 else None
  | String _ s' =>
      match rfind_nat sub s' with
      | Some i => Some (S i)
      | None => if prefix sub s then Some 0 else None
      end
  end.

Definition rfind (s sub : string) : Z :=
  match rfind_nat sub s with
  | Some i => Z.of_nat i
  | None => (-1)%Z
  end.

(** [s[start:]] with Python's treatment of negative and large bounds. *)
Definition slice_from (s : string) (start : Z) : string :=
  let len := Z.of_nat (String.length s) in
  let lo := if (start <? 0)%Z then Z.max 0 (len + start) else Z.min start len in
  drop (Z.to_nat lo) s.

Definition lower_char (c : ascii) : ascii :=
  let n := nat_of_ascii c in
  if ((65 <=? n) && (n <=? 90))%nat then ascii_of_nat (n + 32) else c.

(** [s.lower()]. *)
Fixpoint lower (s : string) : string :=
  match s with
  | EmptyString => EmptyString
  | String c s' => String (lower_char c) (lower s')
  end.

(** The characters [str.strip()] removes. *)
Definition is_space (c : ascii) : bool :=
  let n := nat_of_ascii c in
  (((9 <=? n) && (n <=? 13)) || ((28 <=? n) && (n <=? 32)))%nat.

Fixpoint lstrip (s : string) : string :=
  match s with
  | EmptyString => EmptyString
  | String c s' => if is_space c then lstrip s' else s
  end.

Fixpoint rstrip (s : string) : string :=
  match s with
  | EmptyString => EmptyString
  | String c s' =>
      match rstrip s' with
      | EmptyString => if is_space c then EmptyString else String c EmptyString
      | r => String c r
      end
  end.

(** [s.strip()]. *)
Definition strip (s : string) : string := rstrip (lstrip s).

(** [s.split(sep)] for a one-character separator. *)
Fixpoint split (sep : ascii) (s : string) : list string :=
  match s with
  | EmptyString => [EmptyString]
  | String c s' =>
      if Ascii.eqb c sep then EmptyString :: split sep s'
      else match split sep s' with
           | h :: t => String c h :: t
           | [] => [String c EmptyString]
           end
  end.

(** [s * n]. *)
Fixpoint repeat (s : string) (n : nat) : string :=
  match n with
  | O => EmptyString
  | S n' => s ++ repeat s n'
  end.

(** [str(n)] for a non-negative integer. *)
Definition of_nat (n : nat) : string := NilZero.string_of_uint (Nat.to_uint n).

(* ================================================================= *)
(** ** Python values and exceptions *)

(** The values the program tells apart with [isinstance], [hasattr], [in]
    and truthiness: [None], booleans, strings, lists, dicts, instances of
    [GradeNode] and of the two message classes. *)
#[warnings="-register-all"]
Inductive PyVal : Type :=
| PyNone
| PyBool (b : bool)
| PyStr (s : string)
| PyList (items : list PyVal)
| PyDict (entries : list (string * PyVal))
| PyGradeNode (status : bool)
| PyUserMessage (role : string) (content : PyVal)
| PyAIMessage (role : string) (content : PyVal).

(** Modelled from the spec: the message classes [UserMessage] and
    [AIMessage] ([maslibpy.messages.user], [maslibpy.messages.assistant],
    not among the sources) are role + content records; their constructors
    store the content they are given, with role [user] and [assistant]
    when none is passed, and neither class is a subclass of the other. *)
Definition UserMessage (content : PyVal) : PyVal := PyUserMessage "user" content.
Definition AIMessage (content : PyVal) : PyVal := PyAIMessage "assistant" content.

(** [bool(v)]. *)
Definition py_truthy (v : PyVal) : bool :=
  match v with
  | PyNone => false
  | PyBool b => b
  | PyStr s => negb (String.eqb s EmptyString)
  | PyList items => match items with [] => false | _ => true end
  | PyDict entries => match entries with [] => false | _ => true end
  | PyGradeNode _ | PyUserMessage _ _ | PyAIMessage _ _ => true
  end.

Definition type_name (v : PyVal) : string :=
  match v with
  | PyNone => "NoneType"
  | PyBool _ => "bool"
  | PyStr _ => "str"
  | PyList _ => "list"
  | PyDict _ => "dict"
  | PyGradeNode _ => "GradeNode"
  | PyUserMessage _ _ => "UserMessage"
  | PyAIMessage _ _ => "AIMessage"
  end.

(** [v == s] for a string literal [s]. *)
Definition py_eq_str (v : PyVal) (s : string) : bool :=
  match v with
  | PyStr t => String.eqb t s
  | _ => false
  end.

(** An exception instance: its class and [str(e)].  What the program and
    the backends of the model raise are instances of [Exception], which
    [except Exception] catches. *)
Record Exn : Type := mkExn { exn_class : string; exn_text : string }.

(** The builtin classes that derive from [BaseException] and not from
    [Exception]: [except Exception] lets their instances through. *)
Definition outside_exception : list string :=
  ["BaseException"; "KeyboardInterrupt"; "SystemExit"; "GeneratorExit"].

(** [isinstance(e, Exception)], for an instance of a builtin class. *)
Definition is_exception (e : Exn) : bool :=
  negb (existsb (String.eqb (exn_class e)) outside_exception).

Definition attribute_error (v : PyVal) (attr : string) : Exn :=
  mkExn "AttributeError" ("'" ++ type_name v ++ "' object has no attribute '" ++ attr ++ "'").
Definition key_error (k : string) : Exn := mkExn "KeyError" ("'" ++ k ++ "'").
Definition index_error : Exn := mkExn "IndexError" "list index out of range".
Definition unbound_local_error (x : string) : Exn :=
  mkExn "UnboundLocalError"
        ("cannot access local variable '" ++ x ++ "' where it is not associated with a value").
(** [raise Exception]: the class is instantiated without arguments. *)
Definition bare_exception : Exn := mkExn "Exception" EmptyString.

Inductive Result (A : Type) : Type :=
| Ok (a : A)
| Err (e : Exn).
Arguments Ok {A} a.
Arguments Err {A} e.

(** [d[k]] on the entries of a dict. *)
Fixpoint dict_get (entries : list (string * PyVal)) (k : string) : option PyVal :=
  match entries with
  | [] => None
  | (k', v) :: rest => if String.eqb k' k then Some v else dict_get rest k
  end.

(** [items[-1]]. *)
Fixpoint last_item (items : list PyVal) : option PyVal :=
  match items with
  | [] => None
  | [v] => Some v
  | _ :: rest => last_item rest
  end.

(** [items[-1] = v] on a non-empty list. *)
Definition set_last (items : list PyVal) (v : PyVal) : list PyVal :=
  removelast items ++ [v].

(* ================================================================= *)
(** ** Agent configuration and the backend interface *)

(** A backend handle.  A capability flag is [None] when the attribute is
    absent ([hasattr] is false). *)
Record LLM : Type := mkLLM {
  model_name : string;
  supports_response_schema : option bool;
  supports_parallel_function_calling : option bool
}.

(** [hasattr(llm, flag) and llm.flag]. *)
Definition advertises (flag : option bool) : bool :=
  match flag with
  | Some b => b
  | None => false
  end.

(** The agent fields the loop reads.  [system_prompt_format v] is
    [agent.system_prompt.format(query=v)], which raises on a template with
    other placeholders.  [agent.messages] is mutable and lives in [State]. *)
Record Agent : Type := mkAgent {
  max_iterations : Z;
  generator_llm : LLM;
  critique_llm : LLM;
  system_prompt_format : PyVal -> Result string;
  prompt_type : string;
  prompt_pattern : string;
  session_id : string
}.

(** The [response_format] argument of [generate]: the default or the
    [GradeNode] schema. *)
Inductive RespFormat : Type := NoFormat | GradeNodeSchema.

(** The [tools] argument of [generate]: the default [[]] or the one-element
    list that declares [evaluate_grade]. *)
Inductive Tools : Type := NoTools | EvaluateGradeTool.

(** [{"role": msg.role, "content": msg.content}]. *)
Definition FlatMsg : Type := (string * PyVal)%type.

(** What [llm.invoke(...)] followed by
    [res["choices"][0]["message"]["content"]] gives: the content, or the
    exception raised by the call or by the indexing of a malformed reply. *)
Inductive BackendResult : Type :=
| BContent (content : PyVal)
| BRaise (e : Exn).

(** The collaborators outside the program: the backend behind
    [llm.invoke], which may answer differently each time it is called;
    [repr] of objects other than [None], booleans and strings; and the
    wall clock, read for the elapsed-time line (the text of
    [round(time.time() - start_time, 2)]). *)
Class Environment : Type := {
  World : Type;
  backend_invoke : World -> LLM -> list FlatMsg -> RespFormat -> Tools -> BackendResult * World;
  repr_other : PyVal -> string;
  elapsed : World -> string
}.

(* ================================================================= *)
(** ** Program state and the monad of effects *)

Section Model.

Context {env : Environment}.

(** What one run can observe being done, in order. *)
Inductive Event : Type :=
| EEpoch (i : nat)
    (** [tqdm] hands iteration [i] (from 0) to the loop body *)
| EInvoke (llm : LLM) (msgs : list FlatMsg) (fmt : RespFormat) (tools : Tools)
          (reply : BackendResult)
    (** one [llm.invoke(messages, response_format, tools)] and its outcome *)
| EMakedirs (path : string)
    (** [os.makedirs(path, exist_ok=True)] *)
| EWrite (path : string) (content : string).
    (** [open(path, "w")] followed by [f.write(content)] *)

(** The heap and the locals of one call of [invoke].
    - [messages]: [agent.messages], the conversation state;
    - [query_obj]: the caller's query object, shared by [query],
      [actual_query] and the parameter of [update_chat_history], and a
      different object from [agent.messages];
    - [world]: the state of the collaborators;
    - [res], [generated_response]: the locals of [invoke];
      [generated_response] is [None] while the name is unbound. *)
Record State : Type := mkState {
  messages : list PyVal;
  query_obj : PyVal;
  world : World;
  events : list Event;
  res : string;
  generated_response : option PyVal
}.

Definition with_messages (st : State) (m : list PyVal) : State :=
  mkState m (query_obj st) (world st) (events st) (res st) (generated_response st).
Definition with_query_obj (st : State) (q : PyVal) : State :=
  mkState (messages st) q (world st) (events st) (res st) (generated_response st).
Definition with_world (st : State) (w : World) : State :=
  mkState (messages st) (query_obj st) w (events st) (res st) (generated_response st).
Definition with_events (st : State) (ev : list Event) : State :=
  mkState (messages st) (query_obj st) (world st) ev (res st) (generated_response st).
Definition with_res (st : State) (r : string) : State :=
  mkState (messages st) (query_obj st) (world st) (events st) r (generated_response st).
Definition with_generated_response (st : State) (g : option PyVal) : State :=
  mkState (messages st) (query_obj st) (world st) (events st) (res st) g.

Definition M (A : Type) : Type := State -> Result A * State.

Definition ret {A : Type} (a : A) : M A := fun st => (Ok a, st).

Definition raise {A : Type} (e : Exn) : M A := fun st => (Err e, st).

Definition bind {A B : Type} (m : M A) (k : A -> M B) : M B :=
  fun st =>
    match m st with
    | (Ok a, st') => k a st'
    | (Err e, st') => (Err e, st')
    end.

Notation "x <- m ;; k" := (bind m (fun x => k))
  (at level 61, m at next level, right associativity).
Notation "m ;; k" := (bind m (fun _ => k))
  (at level 61, right associativity).

(** A pure step that may raise. *)
Definition lift {A : Type} (r : Result A) : M A := fun st => (r, st).

Definition emit (e : Event) : M unit :=
  fun st => (Ok tt, with_events st (events st ++ [e])).

(** [agent.messages.append(m)] and [agent.messages.extend(items)]. *)
Definition append_message (m : PyVal) : M unit :=
  fun st => (Ok tt, with_messages st (messages st ++ [m])).
Definition extend_messages (items : list PyVal) : M unit :=
  fun st => (Ok tt, with_messages st (messages st ++ items)).

(** [res += s]. *)
Definition res_append (s : string) : M unit :=
  fun st => (Ok tt, with_res st (res st ++ s)%string).

Definition set_generated_response (g : PyVal) : M unit :=
  fun st => (Ok tt, with_generated_response st (Some g)).

(** The [query] argument of a function: the caller's query object (passed
    by reference), a value built for this call, or the list
    [agent.messages] itself (the same object under two names). *)
Inductive QueryArg : Type :=
| TheQuery
| Fresh (v : PyVal)
| TheMessages.

Definition read_query (q : QueryArg) : M PyVal :=
  fun st => (Ok match q with
                | TheQuery => query_obj st
                | Fresh v => v
                | TheMessages => PyList (messages st)
                end, st).

(** [query[-1] = ...] reaches the caller's list through the alias; on a
    list built for the call nobody else sees it; when the list is
    [agent.messages] the assignment is an assignment to the history.  The
    program only ever assigns a list to a list query. *)
Definition write_query (q : QueryArg) (v : PyVal) : M unit :=
  fun st => (Ok tt, match q with
                    | TheQuery => with_query_obj st v
                    | Fresh _ => st
                    | TheMessages =>
                        match v with
                        | PyList items => with_messages st items
                        | _ => st
                        end
                    end).

(** [str(v)], as the f-strings apply it. *)
Definition py_str (v : PyVal) : string :=
  match v with
  | PyNone => "None"
  | PyBool true => "True"
  | PyBool false => "False"
  | PyStr s => s
  | other => repr_other other
  end.

(* ================================================================= *)
(** ** [PromptBased.update_chat_history] *)

Definition dict_getitem (entries : list (string * PyVal)) (k : string) : M PyVal :=
  match dict_get entries k with
  | Some v => ret v
  | None => raise (key_error k)
  end.

(** Lines 54-66.  Line 64, [query[-1] = user_msg], assigns to the list the
    caller passed: when that list is [agent.messages] ([TheMessages]) it
    is the last entry of the history that is replaced, and line 65 then
    extends the history with itself. *)
Definition update_chat_history (agent : Agent) (q : QueryArg) : M unit :=
  query <- read_query q ;;
  match query with
  | PyStr _ =>
      c <- lift (system_prompt_format agent query) ;;
      append_message (UserMessage (PyStr c))
  | PyList items =>
      match last_item items with
      | None => raise index_error
      | Some (PyUserMessage _ _) => extend_messages items
      | Some (PyDict d) =>
          role <- dict_getitem d "role" ;;
          items' <- (if py_eq_str role "user" then
                       content <- dict_getitem d "content" ;;
                       c <- lift (system_prompt_format agent content) ;;
                       let items' := set_last items (UserMessage (PyStr c)) in
                       write_query q (PyList items') ;;
                       ret items'
                     else ret items) ;;
          extend_messages items'
      | Some _ => ret tt
      end
  | _ => ret tt
  end.

(* ================================================================= *)
(** ** [PromptBased.generate] *)

(** [[{"role": msg.role, "content": msg.content} for msg in agent.messages]]:
    the first entry without these attributes raises. *)
Fixpoint flatten (msgs : list PyVal) : Result (list FlatMsg) :=
  match msgs with
  | [] => Ok []
  | m :: rest =>
      match m with
      | PyUserMessage role content | PyAIMessage role content =>
          match flatten rest with
          | Ok fl => Ok ((role, content) :: fl)
          | Err e => Err e
          end
      | other => Err (attribute_error other "role")
      end
  end.

Definition flatten_messages : M (list FlatMsg) :=
  fun st => (flatten (messages st), st).

(** [llm.invoke(messages, response_format, tools)] and the extraction of
    the content of the first choice. *)
Definition llm_invoke (llm : LLM) (msgs : list FlatMsg) (fmt : RespFormat) (tools : Tools)
  : M PyVal :=
  fun st =>
    let '(reply, w) := backend_invoke (world st) llm msgs fmt tools in
    let st' := with_events (with_world st w) (events st ++ [EInvoke llm msgs fmt tools reply]) in
    match reply with
    | BContent v => (Ok v, st')
    | BRaise e => (Err e, st')
    end.

Definition generate (agent : Agent) (llm : LLM) (q : QueryArg)
                    (response_format : RespFormat) (tools : Tools) : M PyVal :=
  update_chat_history agent q ;;
  flat <- flatten_messages ;;
  updates_res <- llm_invoke llm flat response_format tools ;;
  if py_truthy updates_res then
    append_message (AIMessage updates_res) ;;
    ret updates_res
  else ret PyNone.

(* ================================================================= *)
(** ** [PromptBased.critique] *)

Definition critique_prompt (original_query response : string) : string :=
  ("Evaluate this response for " ++ dquote ++ original_query ++ dquote ++ ":" ++ nl
   ++ nl
   ++ "        " ++ response ++ nl
   ++ nl
   ++ "        Check:" ++ nl
   ++ "        1. Accuracy: Any errors?" ++ nl
   ++ "        2. Completeness: Missing key info?" ++ nl
   ++ "        3. Clarity: Clear and logical?" ++ nl
   ++ nl
   ++ "        If accurate and complete, return exactly: " ++ response ++ nl
   ++ "        Otherwise, provide corrected version.")%string.

Definition critique (agent : Agent) (llm : LLM) (response original_query : PyVal) : M PyVal :=
  generate agent llm
           (Fresh (PyStr (critique_prompt (py_str original_query) (py_str response))))
           NoFormat NoTools.

(* ================================================================= *)
(** ** [PromptBased.grade] *)

Definition grade_prompt (query generated_response critiqued_response : string) : string :=
  (nl
   ++ "            You are a boolean evaluator that must only return True or False without any additional text or explanation." ++ nl
   ++ "            Evaluate the response based on these criteria:" ++ nl
   ++ "            1. Accuracy: Is the response factually correct?" ++ nl
   ++ "            2. Completeness: Does it fully address all aspects of the query?" ++ nl
   ++ "            3. Clarity: Is it well-structured and easy to understand?" ++ nl
   ++ "            4. Relevance: Does it directly address the topic asked?" ++ nl
   ++ nl
   ++ "            Evaluate:" ++ nl
   ++ "            - **User Query**: " ++ query ++ nl
   ++ "            - **Generated Response**: " ++ generated_response ++ nl
   ++ "            - **Critiqued Response**: " ++ critiqued_response ++ nl
   ++ nl
   ++ "            Return exactly 'True' if all criteria are met, or exactly 'False' if any criterion fails." ++ nl
   ++ "            Do not include any reasoning, explanations, or additional characters - your entire output must be either the word 'True' or the word 'False'." ++ nl
   ++ "            ")%string.

(** The test that opens the structured-schema strategy (line 119). *)
Definition structured_selected (agent : Agent) (llm : LLM) : bool :=
  advertises (supports_response_schema llm)
  && advertises (supports_parallel_function_calling (critique_llm agent)).

(** The test that opens the function-calling strategy (line 124). *)
Definition function_calling_selected (llm : LLM) : bool :=
  advertises (supports_parallel_function_calling llm).

(** Lines 120-122: [Some status] when the call returned a [GradeNode],
    [None] when control leaves the [if] without returning. *)
Definition grade_structured (agent : Agent) (llm : LLM) (prompt : string) : M (option PyVal) :=
  grade_result <- generate agent llm (Fresh (PyStr prompt)) GradeNodeSchema EvaluateGradeTool ;;
  match grade_result with
  | PyGradeNode status => ret (Some (PyBool status))
  | _ => ret None
  end.

(** Lines 127-132 on the value [generate] returned. *)
Definition function_calling_verdict (grade_result : PyVal) : PyVal :=
  match grade_result with
  | PyDict entries =>
      match dict_get entries "status" with
      | Some status => status
      | None => PyBool false
      end
  | PyStr s => PyBool (contains "true" (lower s))
  | _ => PyBool false
  end.

(** Lines 125-132. *)
Definition grade_function_calling (agent : Agent) (llm : LLM) (prompt : string) : M PyVal :=
  grade_result <- generate agent llm (Fresh (PyStr prompt)) NoFormat EvaluateGradeTool ;;
  ret (function_calling_verdict grade_result).

(** Lines 136-141 on a text reply. *)
Definition grade_text (grade_result : string) : bool :=
  let result_text := lower (strip grade_result) in
  if String.eqb result_text "true" then true
  else if contains "true" result_text && negb (contains "false" result_text) then true
  else false.

(** Lines 134-141: [grade_result.strip()] needs a [str]. *)
Definition grade_plain_text (agent : Agent) (llm : LLM) (prompt : string) : M PyVal :=
  grade_result <- generate agent llm (Fresh (PyStr prompt)) NoFormat NoTools ;;
  match grade_result with
  | PyStr s => ret (PyBool (grade_text s))
  | other => raise (attribute_error other "strip")
  end.

Definition grade (agent : Agent) (llm : LLM)
                 (query generated_response critiqued_response : PyVal) : M PyVal :=
  let prompt :=
    grade_prompt (py_str query) (py_str generated_response) (py_str critiqued_response) in
  returned <- (if structured_selected agent llm
               then grade_structured agent llm prompt
               else ret None) ;;
  match returned with
  | Some status => ret status
  | None =>
      if function_calling_selected llm
      then grade_function_calling agent llm prompt
      else grade_plain_text agent llm prompt
  end.

(* ================================================================= *)
(** ** [PromptBased.invoke] *)

Definition final_answer_marker : string := "Final Answer".

(** Lines 22-24 on a [str]. *)
Definition extract_final_answer (generated : string) : string :=
  let ind := rfind generated final_answer_marker in
  if (ind >=? 0)%Z
  then slice_from generated (ind + Z.of_nat (String.length "Final Answer:"))
  else generated.

(** Lines 21-27: the value bound to [generated_response] afterwards. *)
Definition extract_step (generated : PyVal) : M PyVal :=
  match generated with
  | PyNone =>
      set_generated_response (PyStr EmptyString) ;;
      raise bare_exception
  | PyStr s =>
      let s' := extract_final_answer s in
      set_generated_response (PyStr s') ;;
      ret (PyStr s')
  | other => raise (attribute_error other "rfind")
  end.

(** Lines 31-38, after the critique; [true] stands for [break]. *)
Definition after_critique (agent : Agent) (actual critiqued_response : PyVal) : M bool :=
  res_append (nl ++ nl ++ "**Critiqued Response**:" ++ nl ++ nl
              ++ py_str critiqued_response ++ nl ++ nl) ;;
  query <- read_query TheQuery ;;
  grade_output <- grade agent (critique_llm agent) query actual critiqued_response ;;
  res_append (nl ++ nl ++ "**Grade node output**" ++ nl ++ nl ++ py_str grade_output) ;;
  if py_truthy grade_output then ret true
  else
    emit (EMakedirs "results") ;;
    res_append (repeat "=" 100 ++ nl ++ nl) ;;
    ret false.

(** Lines 29-38, after the extraction. *)
Definition after_extract (agent : Agent) (actual : PyVal) : M bool :=
  query <- read_query TheQuery ;;
  critiqued_response <- critique agent (critique_llm agent) actual query ;;
  after_critique agent actual critiqued_response.

(** The body of the [try] (lines 18-38) in iteration [i]. *)
Definition try_body (agent : Agent) (i : nat) : M bool :=
  emit (EEpoch i) ;;
  generated <- generate agent (generator_llm agent) TheQuery NoFormat NoTools ;;
  set_generated_response generated ;;
  res_append ("===== Epoch " ++ of_nat (i + 1) ++ " =====" ++ nl ++ nl) ;;
  res_append ("**Generated Response**:" ++ nl ++ nl ++ py_str generated ++ nl ++ nl) ;;
  actual <- extract_step generated ;;
  after_extract agent actual.

(** The entry the handler (line 41) adds to the trace. *)
Definition error_entry (e : Exn) (i : nat) : string :=
  (nl ++ nl ++ "**Error occurred " ++ exn_text e ++ " in iteration " ++ of_nat (i + 1) ++ "**"
   ++ nl ++ nl)%string.

(** The [for] loop of lines 16-43 with [n] iterations left, the next one
    being iteration [i]. *)
Fixpoint loop (agent : Agent) (n i : nat) : M unit :=
  match n with
  | O => ret tt
  | S n' =>
      fun st =>
        match try_body agent i st with
        | (Ok true, st') => (Ok tt, st')
        | (Ok false, st') => loop agent n' (S i) st'
        | (Err e, st') => (Err e, with_res st' (res st' ++ error_entry e i))
        end
  end.

(** Line 45. *)
Definition save_path (agent : Agent) : string :=
  ("prompt_results/" ++ prompt_type agent ++ "_" ++ prompt_pattern agent
   ++ "_G_" ++ last (split "/" (model_name (generator_llm agent))) EmptyString
   ++ "_C_" ++ last (split "/" (model_name (critique_llm agent))) EmptyString
   ++ "_" ++ hd EmptyString (split "-" (session_id agent)) ++ "_.txt")%string.

(** Lines 44-52. *)
Definition finish (agent : Agent) : M PyVal :=
  emit (EMakedirs "prompt_results") ;;
  fun st =>
    match generated_response st with
    | None => (Err (unbound_local_error "generated_response"), st)
    | Some g =>
        let text := (res st ++ nl ++ nl ++ "**Final Output**:" ++ nl ++ nl ++ py_str g
                     ++ nl ++ nl ++ "Response Time:" ++ elapsed (world st) ++ " seconds")%string in
        (Ok g, with_events (with_res st text) (events st ++ [EWrite (save_path agent) text]))
    end.

(** Lines 13-15: [res] starts empty and [generated_response] unbound. *)
Definition enter : M unit :=
  fun st => (Ok tt, with_generated_response (with_res st EmptyString) None).

Definition invoke (agent : Agent) : M PyVal :=
  enter ;;
  loop agent (Z.to_nat (max_iterations agent)) 0 ;;
  finish agent.

End Model.

Notation "x <- m ;; k" := (bind m (fun x => k))
  (at level 61, m at next level, right associativity).
Notation "m ;; k" := (bind m (fun _ => k))
  (at level 61, right associativity).

(* ================================================================= *)
(** ** Observations on a run *)

Section Observations.

Context {env : Environment}.

Definition is_invoke (e : Event) : bool :=
  match e with EInvoke _ _ _ _ _ => true | _ => false end.
Definition is_epoch (e : Event) : bool :=
  match e with EEpoch _ => true | _ => false end.
Definition is_write (e : Event) : bool :=
  match e with EWrite _ _ => true | _ => false end.

(** The backend calls of a log, in order. *)
Definition backend_calls (ev : list Event) : list Event := filter is_invoke ev.

(** The number of iterations the loop body was entered. *)
Definition cycles (ev : list Event) : nat := List.length (filter is_epoch ev).

(** The files written. *)
Definition writes (ev : list Event) : list Event := filter is_write ev.

(** The top-level grading strategy a backend call belongs to, read off the
    arguments [grade] passes to [generate]. *)
Inductive Strategy : Type := StructuredSchema | FunctionCalling | PlainText.

Definition strategy_of (fmt : RespFormat) (tools : Tools) : Strategy :=
  match fmt, tools with
  | GradeNodeSchema, _ => StructuredSchema
  | NoFormat, EvaluateGradeTool => FunctionCalling
  | NoFormat, NoTools => PlainText
  end.

Fixpoint strategies (ev : list Event) : list Strategy :=
  match ev with
  | [] => []
  | EInvoke _ _ fmt tools _ :: rest => strategy_of fmt tools :: strategies rest
  | _ :: rest => strategies rest
  end.

(** A backend call whose reply has content that [generate] keeps. *)
Definition replied (e : Event) : bool :=
  match e with
  | EInvoke _ _ _ _ (BContent v) => py_truthy v
  | _ => false
  end.

(** [k] consecutive iterations, from iteration [i], that complete with a
    grade that is not accepted. *)
Inductive rejected_cycles (agent : Agent) : nat -> nat -> State -> State -> Prop :=
| rejected_nil : forall i st, rejected_cycles agent i 0 st st
| rejected_cons : forall i k st st1 st2,
    try_body agent i st = (Ok false, st1) ->
    rejected_cycles agent (S i) k st1 st2 ->
    rejected_cycles agent i (S k) st st2.

(** The state in which the loop starts: [enter] applied to the state of
    the call. *)
Definition entered (st : State) : State :=
  with_generated_response (with_res st EmptyString) None.

(** [ran k st st']: the conversation state of [st'] is that of [st] with
    entries added at the end, and so is the log, with no file written and
    [k] iterations entered. *)
Definition ran (k : nat) (st st' : State) : Prop :=
  (exists added, messages st' = messages st ++ added) /\
  (exists ev, events st' = events st ++ ev /\ writes ev = [] /\ cycles ev = k).

(** What the steps inside an iteration do. *)
Definition grows (st st' : State) : Prop := ran 0 st st'.

(** The state in which the body of iteration [i] runs. *)
Definition begun (i : nat) (st : State) : State :=
  with_events st (events st ++ [EEpoch i]).

(** [same_locals st st']: the locals of [invoke] are untouched. *)
Definition same_locals (st st' : State) : Prop :=
  generated_response st' = generated_response st /\ res st' = res st.

(** Every run of [m] relates the state before to the state after, whether
    [m] returns or raises. *)
Definition respects {A : Type} (R : State -> State -> Prop) (m : M A) : Prop :=
  forall st r st', m st = (r, st') -> R st st'.

(** The value [update_chat_history] sees for its [query] parameter. *)
Definition query_value (q : QueryArg) (st : State) : PyVal :=
  match q with
  | TheQuery => query_obj st
  | Fresh v => v
  | TheMessages => PyList (messages st)
  end.

(** The query is an object other than the list [agent.messages]. *)
Definition own_object (q : QueryArg) : bool :=
  match q with TheMessages => false | _ => true end.

(** The entries one call of [generate] adds for a prompt whose formatted
    text is [c] and whose reply has content [v]. *)
Definition exchange (c : string) (v : PyVal) : list PyVal :=
  UserMessage (PyStr c) :: (if py_truthy v then [AIMessage v] else []).

(** The state after a call of [generate] on a prompt string went through:
    the formatted prompt is [c], the backend was sent [flat] and replied
    with content [v], leaving the collaborators in [w]. *)
Definition after_call (st : State) (llm : LLM) (fmt : RespFormat) (tools : Tools)
           (c : string) (flat : list FlatMsg) (v : PyVal) (w : World) : State :=
  mkState (messages st ++ exchange c v) (query_obj st) w
          (events st ++ [EInvoke llm flat fmt tools (BContent v)])
          (res st) (generated_response st).

(** [generate] on the prompt string [p] completed in [st'] with the
    backend reply [v]. *)
Definition completed_call (agent : Agent) (llm : LLM) (fmt : RespFormat) (tools : Tools)
           (p : string) (v : PyVal) (st st' : State) : Prop :=
  exists c flat w,
    system_prompt_format agent (PyStr p) = Ok c /\
    flatten (messages st ++ [UserMessage (PyStr c)]) = Ok flat /\
    backend_invoke (world st) llm flat fmt tools = (BContent v, w) /\
    st' = after_call st llm fmt tools c flat v w.

(** What [generate] returns for a reply with content [v]. *)
Definition kept (v : PyVal) : PyVal := if py_truthy v then v else PyNone.

(** The part of [grade] after the structured-schema [if]: one call under
    the function-calling strategy or one under the plain-text strategy,
    with the backend reply [v] and the value [r] returned. *)
Definition graded_below (agent : Agent) (llm : LLM) (p : string) (v r : PyVal)
           (st st' : State) : Prop :=
  (function_calling_selected llm = true /\
   completed_call agent llm NoFormat EvaluateGradeTool p v st st' /\
   r = function_calling_verdict (kept v))
  \/
  (function_calling_selected llm = false /\
   completed_call agent llm NoFormat NoTools p v st st' /\
   exists s, kept v = PyStr s /\ r = PyBool (grade_text s)).

Definition is_grade_node (v : PyVal) : bool :=
  match v with PyGradeNode _ => true | _ => false end.

(** A completed call of [grade] on the prompt [p]: the contents [replies]
    of the backend replies it received and the value [r] it returned. *)
Definition graded (agent : Agent) (llm : LLM) (p : string) (replies : list PyVal) (r : PyVal)
           (st st' : State) : Prop :=
  (exists b, structured_selected agent llm = true /\ replies = [PyGradeNode b] /\
     completed_call agent llm GradeNodeSchema EvaluateGradeTool p (PyGradeNode b) st st' /\
     r = PyBool b)
  \/
  (exists v1 v2 st1, structured_selected agent llm = true /\ replies = [v1; v2] /\
     completed_call agent llm GradeNodeSchema EvaluateGradeTool p v1 st st1 /\
     is_grade_node v1 = false /\
     graded_below agent llm p v2 r st1 st')
  \/
  (exists v, structured_selected agent llm = false /\ replies = [v] /\
     graded_below agent llm p v r st st').

(** [keeps_generated st st']: the local [generated_response] is untouched. *)
Definition keeps_generated (st st' : State) : Prop :=
  generated_response st' = generated_response st.

(** The blocks lines 19-20 add to the trace in iteration [i]. *)
Definition generated_block (i : nat) (generated : PyVal) : string :=
  (("===== Epoch " ++ of_nat (i + 1) ++ " =====" ++ nl ++ nl)
   ++ ("**Generated Response**:" ++ nl ++ nl ++ py_str generated ++ nl ++ nl))%string.

(** The state at line 29 of iteration [i], when [generate] returned the
    text [g] in state [st]. *)
Definition recorded (i : nat) (g : string) (st : State) : State :=
  with_generated_response
    (with_res st (res st ++ generated_block i (PyStr g)))
    (Some (PyStr (extract_final_answer g))).

(** The block line 31 adds to the trace. *)
Definition critiqued_block (critiqued : PyVal) : string :=
  (nl ++ nl ++ "**Critiqued Response**:" ++ nl ++ nl ++ py_str critiqued ++ nl ++ nl)%string.

(** A generate, critique or grade step of iteration [i], started in [st],
    raises [e] and leaves the state [st']. *)
Inductive step_raises (agent : Agent) (i : nat) (st : State) (e : Exn) : State -> Prop :=
| generate_raises : forall st',
    generate agent (generator_llm agent) TheQuery NoFormat NoTools (begun i st) = (Err e, st') ->
    step_raises agent i st e st'
| critique_raises : forall g st1 st',
    generate agent (generator_llm agent) TheQuery NoFormat NoTools (begun i st)
      = (Ok (PyStr g), st1) ->
    critique agent (critique_llm agent) (PyStr (extract_final_answer g)) (query_obj st1)
             (recorded i g st1) = (Err e, st') ->
    step_raises agent i st e st'
| grade_raises : forall g st1 critiqued st2 st',
    generate agent (generator_llm agent) TheQuery NoFormat NoTools (begun i st)
      = (Ok (PyStr g), st1) ->
    critique agent (critique_llm agent) (PyStr (extract_final_answer g)) (query_obj st1)
             (recorded i g st1) = (Ok critiqued, st2) ->
    grade agent (critique_llm agent) (query_obj st2) (PyStr (extract_final_answer g)) critiqued
          (with_res st2 (res st2 ++ critiqued_block critiqued)) = (Err e, st') ->
    step_raises agent i st e st'.

(** The block line 33 adds to the trace. *)
Definition graded_block (grade_output : PyVal) : string :=
  (nl ++ nl ++ "**Grade node output**" ++ nl ++ nl ++ py_str grade_output)%string.

(** Iteration [i], started in [st], went through its three steps:
    [generate] returned the text [g], [critique] returned [critiqued] and
    [grade] returned [grade_output], leaving the state [st']. *)
Inductive cycle_graded (agent : Agent) (i : nat) (st : State)
  : string -> PyVal -> PyVal -> State -> Prop :=
| cycle_graded_intro : forall g st1 critiqued st2 grade_output st3,
    generate agent (generator_llm agent) TheQuery NoFormat NoTools (begun i st)
      = (Ok (PyStr g), st1) ->
    critique agent (critique_llm agent) (PyStr (extract_final_answer g)) (query_obj st1)
             (recorded i g st1) = (Ok critiqued, st2) ->
    grade agent (critique_llm agent) (query_obj st2) (PyStr (extract_final_answer g)) critiqued
          (with_res st2 (res st2 ++ critiqued_block critiqued)) = (Ok grade_output, st3) ->
    cycle_graded agent i st g critiqued grade_output st3.

(** Lines 33-38 after [grade] returned [grade_output] in [st]. *)
Definition closed (grade_output : PyVal) (st : State) : State :=
  let st1 := with_res st (res st ++ graded_block grade_output) in
  if py_truthy grade_output then st1
  else with_res (with_events st1 (events st1 ++ [EMakedirs "results"]))
                (res st1 ++ (repeat "=" 100 ++ nl ++ nl)).

(** The text line 50 writes, and the state in which [invoke] returns [g]. *)
Definition final_text (st : State) (g : PyVal) : string :=
  (res st ++ nl ++ nl ++ "**Final Output**:" ++ nl ++ nl ++ py_str g
   ++ nl ++ nl ++ "Response Time:" ++ elapsed (world st) ++ " seconds")%string.

Definition finished (agent : Agent) (st : State) (g : PyVal) : State :=
  with_events (with_res st (final_text st g))
              (events st ++ [EMakedirs "prompt_results"; EWrite (save_path agent) (final_text st g)]).

(** The shapes [update_chat_history] looks for in the last element of a
    list query. *)
Definition is_user_message (v : PyVal) : bool :=
  match v with PyUserMessage _ _ => true | _ => false end.

Definition is_dict (v : PyVal) : bool :=
  match v with PyDict _ => true | _ => false end.

(** A raw role/content mapping with role [user]. *)
Definition is_user_role_mapping (v : PyVal) : bool :=
  match v with
  | PyDict d =>
      match dict_get d "role" with
      | Some role => py_eq_str role "user"
      | None => false
      end
  | _ => false
  end.

(** The state after [query[-1] = ...] left the query as the list [v]: the
    caller's object when it was passed by reference, the history when the
    query is [agent.messages]. *)
Definition write_back (q : QueryArg) (v : PyVal) (st : State) : State :=
  match q with
  | TheQuery => with_query_obj st v
  | Fresh _ => st
  | TheMessages =>
      match v with
      | PyList items => with_messages st items
      | _ => st
      end
  end.

(** The one call in which line 64 assigns to an entry of the history: the
    query is [agent.messages] itself and ends with a raw mapping of role
    [user]. *)
Definition aliased_replacement (q : QueryArg) (st : State) : bool :=
  match q with
  | TheMessages =>
      match last_item (messages st) with
      | Some v => is_user_role_mapping v
      | None => false
      end
  | _ => false
  end.

(** [update_chat_history] on a list, case by case. *)
Definition update_on_list (agent : Agent) (q : QueryArg) (items : list PyVal) (st : State)
  : Result unit * State :=
  match last_item items with
  | None => (Err index_error, st)
  | Some (PyUserMessage _ _) => (Ok tt, with_messages st (messages st ++ items))
  | Some (PyDict d) =>
      match dict_get d "role" with
      | None => (Err (key_error "role"), st)
      | Some role =>
          if py_eq_str role "user" then
            match dict_get d "content" with
            | None => (Err (key_error "content"), st)
            | Some content =>
                match system_prompt_format agent content with
                | Err e => (Err e, st)
                | Ok c =>
                    let items' := set_last items (UserMessage (PyStr c)) in
                    let st1 := write_back q (PyList items') st in
                    (Ok tt, with_messages st1 (messages st1 ++ items'))
                end
            end
          else (Ok tt, with_messages st (messages st ++ items))
      end
  | Some _ => (Ok tt, st)
  end.


(** The number of backend calls logged so far. *)
Definition calls (st : State) : nat := List.length (backend_calls (events st)).

(** [within n st st']: from [st] to [st'] the log grew, by at most [n]
    backend calls. *)
Definition within (n : nat) (st st' : State) : Prop :=
  exists ev, events st' = events st ++ ev /\ List.length (backend_calls ev) <= n.


(** [quiet st st']: nothing was logged and the collaborators were not
    reached. *)
Definition quiet (st st' : State) : Prop :=
  events st' = events st /\ world st' = world st.

(** No character of [s] is one that [strip] removes. *)
Fixpoint no_space (s : string) : bool :=
  match s with
  | EmptyString => true
  | String c s' => negb (is_space c) && no_space s'
  end.

(** Every run of [m] logs at most [n] backend calls, whether [m] returns
    or raises. *)
Definition spends {A : Type} (n : nat) (m : M A) : Prop :=
  forall st r st', m st = (r, st') -> within n st st'.

End Observations.

(* ================================================================= *)
(** ** The rules as the specification words them *)

(** The plain-text normalization rule: trim, lowercase; true iff the text
    equals [true], or contains [true] without also containing [false]. *)
Definition spec_grade_rule (reply : string) : bool :=
  let normalized := lower (strip reply) in
  String.eqb normalized "true"
  || (contains "true" normalized && negb (contains "false" normalized)).

(** The text after the last occurrence of [marker], when there is one. *)
Fixpoint after_last (marker s : string) : option string :=
  match s with
  | EmptyString => if prefix marker s then Some (drop (String.length marker) s) else None
  | String _ s' =>
      match after_last marker s' with
      | Some t => Some t
      | None => if prefix marker s then Some (drop (String.length marker) s) else None
      end
  end.

(** The marker rule: the substring following the last occurrence of the
    marker and its trailing colon; the response itself without a marker. *)
Definition spec_final_answer (response : string) : string :=
  match after_last "Final Answer" response with
  | Some (String ":" rest) => rest
  | Some rest => rest
  | None => response
  end.

(** The trace file name: the pattern of the specification over the short
    names and the session-id prefix. *)
Definition short_name (model : string) : string := last (split "/" model) EmptyString.
Definition session_prefix (session : string) : string := hd EmptyString (split "-" session).

Definition spec_trace_path (ptype ppattern gen_model critic_model session : string) : string :=
  ("prompt_results/" ++ ptype ++ "_" ++ ppattern ++ "_G_" ++ short_name gen_model
   ++ "_C_" ++ short_name critic_model ++ "_" ++ session_prefix session ++ "_.txt")%string.

(* ================================================================= *)
(** ** A scripted environment for concrete runs *)

(** The backend answers the calls with the replies of a script, in order,
    and raises once the script is used up. *)
Definition scripted_invoke (w : list BackendResult) (_ : LLM) (_ : list FlatMsg)
                           (_ : RespFormat) (_ : Tools) : BackendResult * list BackendResult :=
  match w with
  | reply :: rest => (reply, rest)
  | [] => (BRaise (mkExn "RuntimeError" "script exhausted"), [])
  end.

#[local] Instance scripted : Environment := {
  World := list BackendResult;
  backend_invoke := scripted_invoke;
  repr_other := fun _ => "<object>";
  elapsed := fun _ => "0.0"
}.

(** A template that is the placeholder alone: [format] gives [str(query)]. *)
Definition bare_template (v : PyVal) : Result string := Ok (@py_str scripted v).

Definition plain_llm (name : string) : LLM := mkLLM name None None.
Definition tool_llm (name : string) : LLM := mkLLM name (Some false) (Some true).
Definition schema_llm (name : string) : LLM := mkLLM name (Some true) (Some true).

Definition demo_agent (n : Z) (critic : LLM) : Agent :=
  mkAgent n (plain_llm "together_ai/mistralai/Mixtral-8x7B-Instruct-v0.1") critic
          bare_template "cot" "zero_shot" "3f2a-77b1-9c".

Definition start (query : PyVal) (script : list BackendResult) : @State scripted :=
  mkState [] query script [] EmptyString None.

Definition demo_plain : Agent := demo_agent 3 (plain_llm "openai/gpt-4o").
Definition demo_query : PyVal := PyStr "What is 2+2?".

(** One cycle whose grade is accepted. *)
Definition accepting_script : list BackendResult :=
  [BContent (PyStr "Final Answer: 4"); BContent (PyStr "4"); BContent (PyStr "True")].

(** One cycle whose grade is rejected. *)
Definition rejecting_script : list BackendResult :=
  [BContent (PyStr "Final Answer: 4"); BContent (PyStr "4"); BContent (PyStr "False")].

(** A generation and a critique, then a backend that fails on the grade. *)
Definition failing_script : list BackendResult :=
  [BContent (PyStr "Final Answer: 4"); BContent (PyStr "4");
   BRaise (mkExn "TimeoutError" "backend timed out")].

Definition demo_schema : Agent := demo_agent 3 (schema_llm "openai/gpt-4o").

(** The replies to a structured-schema call that returns text, and to the
    call that follows it. *)
Definition text_for_schema_script : list BackendResult :=
  [BContent (PyStr "True"); BContent (PyStr "True")].

(** A cycle in which the backend answers the structured-schema call with
    text. *)
Definition schema_cycle_script : list BackendResult :=
  [BContent (PyStr "Final Answer: 4"); BContent (PyStr "4");
   BContent (PyStr "True"); BContent (PyStr "True")].

(** A list query whose last element is a mapping with role [assistant]. *)
Definition assistant_mapping : PyVal :=
  PyDict [("role", PyStr "assistant"); ("content", PyStr "hi")].
Definition assistant_query : PyVal := PyList [assistant_mapping].

(* ================================================================= *)
(** ** The class [LLM] of [maslibpy/llm/llm.py] *)

Module LLMClass.

(** The tables of [maslibpy.llm.constants], which is not among the
    sources, are parameters: [PROVIDERS], [MODELS] (provider to model
    names) and [ENV_VARS] (provider to a dict with the keys [key_name] and
    [prompt]), with [repr_names] for the text an f-string gives a
    collection of names. *)
Record Constants : Type := mkConstants {
  PROVIDERS : list string;
  MODELS : list (string * list string);
  ENV_VARS : list (string * list (string * string));
  repr_names : list string -> string
}.

(** [table[k]], [None] standing for the [KeyError]. *)
Fixpoint lookup {A : Type} (k : string) (table : list (string * A)) : option A :=
  match table with
  | [] => None
  | (k', v) :: rest => if String.eqb k' k then Some v else lookup k rest
  end.

(** [name in names]. *)
Definition member (name : string) (names : list string) : bool :=
  existsb (String.eqb name) names.

(** The attributes of an instance. *)
Record Object : Type := mkObject {
  provider : string;
  model_name : string;
  api_key : option string
}.

Definition value_error (text : string) : Exn := mkExn "ValueError" text.
(** [EnvironmentError] is an alias of [OSError]. *)
Definition environment_error (text : string) : Exn := mkExn "OSError" text.

(** Lines 41-74.  [environ k] is [os.environ.get(k)]; logging is left
    out. *)
Definition validate_provider (K : Constants) (environ : string -> option string)
           (self : Object) : Result Object :=
  if negb (member (provider self) (PROVIDERS K)) then
    Err (value_error ("Unsupported provider. Supported providers: "
                      ++ repr_names K (PROVIDERS K)))
  else
    match lookup (provider self) (MODELS K) with
    | None => Err (key_error (provider self))
    | Some models =>
        if negb (member (model_name self) models) then
          Err (value_error ("Unsupported model: " ++ model_name self ++ " for provider: "
                            ++ provider self ++ ". " ++ "Available models for "
                            ++ provider self ++ ": " ++ repr_names K models))
        else
          match lookup (provider self) (ENV_VARS K) with
          | None => Err (key_error (provider self))
          | Some entry =>
              match lookup "key_name" entry with
              | None => Err (key_error "key_name")
              | Some env_key =>
                  let missing :=
                    match lookup "prompt" entry with
                    | None => Err (key_error "prompt")
                    | Some prompt => Err (environment_error prompt)
                    end in
                  match environ env_key with
                  | None => missing
                  | Some v =>
                      if String.eqb v EmptyString then missing
                      else Ok (mkObject (provider self) (model_name self) (Some v))
                  end
              end
          end
    end.

(** Lines 17-39: [LLM(provider, model_name)]. *)
Definition init (K : Constants) (environ : string -> option string)
           (provider model_name : string) : Result Object :=
  validate_provider K environ (mkObject provider model_name None).

Definition bad_input : Exn :=
  value_error "Input must be a string or a list of dictionaries for messages.".

(** Lines 95-102: the messages sent to the model. *)
Definition formatted_messages (messages : PyVal) : Result (list PyVal) :=
  match messages with
  | PyStr s => Ok [PyDict [("role", PyStr "user"); ("content", PyStr s)]]
  | PyList items => if forallb is_dict items then Ok items else Err bad_input
  | _ => Err bad_input
  end.

(** Lines 76-110.  [completion w model msgs] stands for
    [completion(model=..., messages=..., stream=False)] followed by the
    extraction of the content of the first choice, in the state [w] of
    the provider.  The third component lists the calls of [completion]. *)
Definition invoke {W : Type}
           (completion : W -> string -> list PyVal -> BackendResult * W)
           (self : Object) (messages : PyVal) (w : W)
  : Result PyVal * W * list (string * list PyVal) :=
  match formatted_messages messages with
  | Err e => (Err e, w, [])
  | Ok msgs =>
      let '(reply, w') := completion w (model_name self) msgs in
      (match reply with
       | BContent res => Ok res
       | BRaise e => Err e
       end, w', [(model_name self, msgs)])
  end.

(** [generate] (line 74 of [prompt_based.py]) passes three positional
    arguments to [llm.invoke]; the method (line 76) declares [messages]
    only, so on an instance of this class the call raises before the body
    of [invoke] runs. *)
Definition too_many_arguments : Exn :=
  mkExn "TypeError" "LLM.invoke() takes 2 positional arguments but 4 were given".

(** The environment in which every backend handle is an instance of this
    class. *)
Definition as_backend (env : Environment) : Environment := {|
  World := @World env;
  backend_invoke := fun w _ _ _ _ => (BRaise too_many_arguments, w);
  repr_other := @repr_other env;
  elapsed := @elapsed env
|}.

End LLMClass.

(** Tables and an environment for concrete evaluations. *)
Definition demo_constants : LLMClass.Constants :=
  LLMClass.mkConstants
    ["together"; "openai"]
    [("together", ["together_ai/mistralai/Mixtral-8x7B-Instruct-v0.1"]);
     ("openai", ["openai/gpt-4o"])]
    [("together", [("key_name", "TOGETHER_API_KEY"); ("prompt", "Set TOGETHER_API_KEY")]);
     ("openai", [("key_name", "OPENAI_API_KEY"); ("prompt", "Set OPENAI_API_KEY")])]
    (String.concat ", ").

Definition demo_environ (k : string) : option string :=
  if String.eqb k "TOGETHER_API_KEY" then Some "sk-demo"
  else if String.eqb k "OPENAI_API_KEY" then Some EmptyString
  else None.

(** A query of one raw user-role mapping. *)
Definition user_mapping : PyVal :=
  PyDict [("role", PyStr "user"); ("content", PyStr "What is 2+2?")].
Definition user_query : PyVal := PyList [user_mapping].

(** A generator reply without content. *)
Definition empty_generation_script : list BackendResult := [BContent (PyStr EmptyString)].

(** A history into which a list query brought a raw mapping. *)
Definition raw_history : @State scripted :=
  mkState [assistant_mapping] demo_query [] [] EmptyString None.

(** A history that ends with a raw mapping of role [user], and a backend
    with one reply. *)
Definition aliased_history : @State scripted :=
  mkState [AIMessage (PyStr "Hello"); user_mapping] demo_query
          [BContent (PyStr "Final Answer: 4")] [] EmptyString None.

(** A backend that fails on the first call. *)
Definition timeout_script : list BackendResult :=
  [BRaise (mkExn "TimeoutError" "backend timed out")].

(** A provider for [LLM.invoke] that answers nothing. *)
Definition silent_completion (w : unit) (_ : string) (_ : list PyVal) : BackendResult * unit :=
  (BContent PyNone, w).

(* ================================================================= *)
(** * Properties *)

(** ** Strings *)

Section StringFacts.

Implicit Types s t sub pre post : string.

Lemma drop_0 s : drop 0 s = s.
Proof. destruct s; reflexivity. Qed.

Lemma drop_all s n : String.length s <= n -> drop n s = EmptyString.
Proof.
  revert n; induction s as [|c s IH]; intros [|n] H; simpl in *; auto; try lia.
  apply IH; lia.
Qed.

Lemma drop_app pre t n : drop (String.length pre + n) (pre ++ t) = drop n t.
Proof. induction pre as [|c pre IH]; simpl; auto. Qed.

Lemma string_app_assoc s t u : ((s ++ t) ++ u)%string = (s ++ t ++ u)%string.
Proof. induction s as [|c s IH]; simpl; [reflexivity|now rewrite IH]. Qed.

Lemma string_length_app s t : String.length (s ++ t) = String.length s + String.length t.
Proof. induction s as [|c s IH]; simpl; auto. Qed.

Lemma slice_from_nonneg s z : (0 <= z)%Z -> slice_from s z = drop (Z.to_nat z) s.
Proof.
  intros Hz. unfold slice_from.
  destruct (z <? 0)%Z eqn:E; [apply Z.ltb_lt in E; lia|].
  destruct (Z.le_gt_cases z (Z.of_nat (String.length s))) as [Hle|Hgt].
  - now rewrite Z.min_l by lia.
  - rewrite Z.min_r by lia. rewrite Nat2Z.id.
    rewrite !drop_all; auto; lia.
Qed.

Lemma rfind_nat_none sub s : rfind_nat sub s = None <-> contains sub s = false.
Proof.
  induction s as [|c s IH]; cbn [rfind_nat contains].
  - rewrite orb_false_r. destruct (prefix sub EmptyString); split; congruence.
  - destruct (rfind_nat sub s) as [i|].
    + split; [discriminate|]. intros H. apply orb_false_iff in H as [_ H].
      apply IH in H. discriminate.
    + destruct IH as [IH _]. rewrite (IH eq_refl), orb_false_r.
      destruct (prefix sub (String c s)); split; congruence.
Qed.

(** [rfind] returns the start of an occurrence after which the pattern
    does not start again. *)
Lemma rfind_nat_last sub pre t :
  prefix sub t = true -> contains sub (drop 1 t) = false ->
  rfind_nat sub (pre ++ t) = Some (String.length pre).
Proof.
  intros Hp Hc. induction pre as [|c pre IH].
  - destruct t as [|c t]; cbn [append rfind_nat String.length].
    + now rewrite Hp.
    + apply rfind_nat_none in Hc. cbn [drop] in Hc. now rewrite Hc, Hp.
  - cbn [append rfind_nat String.length]. now rewrite IH.
Qed.

Lemma prefix_app sub t : prefix sub (sub ++ t) = true.
Proof.
  induction sub as [|c sub IH]; simpl.
  - now destruct t.
  - destruct (ascii_dec c c); [exact IH | congruence].
Qed.

Lemma split_nonempty c s : split c s <> [].
Proof.
  destruct s as [|a s]; simpl; [discriminate|].
  destruct (Ascii.eqb a c); [discriminate|].
  destruct (split c s); discriminate.
Qed.

Lemma split_app c a b :
  split c (a ++ String c b) = (split c a ++ split c b)%list.
Proof.
  induction a as [|x a IH]; simpl.
  - now rewrite Ascii.eqb_refl.
  - destruct (Ascii.eqb x c); [now rewrite IH|].
    rewrite IH. destruct (split c a) eqn:E; [now apply split_nonempty in E|].
    reflexivity.
Qed.

Lemma split_absent c s : contains (String c EmptyString) s = false -> split c s = [s].
Proof.
  induction s as [|a s IH]; simpl; auto.
  intros H. apply orb_false_iff in H as [Ha Hs].
  destruct (Ascii.eqb a c) eqn:E.
  - apply Ascii.eqb_eq in E; subst a.
    destruct (ascii_dec c c); [|congruence]. now destruct s.
  - now rewrite (IH Hs).
Qed.

Lemma last_app_nonempty (l1 l2 : list string) d : l2 <> [] -> last (l1 ++ l2) d = last l2 d.
Proof.
  intros H. induction l1 as [|x l1 IH]; simpl; auto.
  destruct (l1 ++ l2)%list eqn:E; auto.
  apply app_eq_nil in E as [_ E]; congruence.
Qed.

End StringFacts.

(** ** The marker extraction *)

Lemma extract_no_marker response :
  contains final_answer_marker response = false ->
  extract_final_answer response = response.
Proof.
  intros H. apply rfind_nat_none in H.
  unfold extract_final_answer, rfind. now rewrite H.
Qed.

Lemma extract_at_last_marker pre post :
  contains final_answer_marker (drop 1 (final_answer_marker ++ post)) = false ->
  extract_final_answer (pre ++ final_answer_marker ++ post) = drop 1 post.
Proof.
  intros H.
  unfold extract_final_answer, rfind.
  rewrite (rfind_nat_last _ pre _ (prefix_app final_answer_marker post) H).
  assert (E : (Z.of_nat (String.length pre) >=? 0)%Z = true)
    by (rewrite Z.geb_leb; apply Z.leb_le; lia).
  rewrite E.
  rewrite slice_from_nonneg by lia.
  rewrite <- Nat2Z.inj_add, Nat2Z.id, drop_app.
  reflexivity.
Qed.

Lemma after_last_some marker pre t :
  prefix marker t = true -> contains marker (drop 1 t) = false ->
  after_last marker (pre ++ t) = Some (drop (String.length marker) t).
Proof.
  intros Hp Hc. induction pre as [|c pre IH].
  - destruct t as [|c t]; cbn [append after_last].
    + now rewrite Hp.
    + cbn [drop] in Hc.
      assert (Hn : after_last marker t = None).
      { clear Hp. induction t as [|a t IHt]; cbn [after_last contains] in *.
        - rewrite orb_false_r in Hc. now rewrite Hc.
        - apply orb_false_iff in Hc as [H1 H2]. now rewrite (IHt H2), H1. }
      now rewrite Hn, Hp.
  - cbn [append after_last]. now rewrite IH.
Qed.
(** ** The monad *)

Section MonadFacts.

Context {env : Environment}.

Lemma bind_inv A B (m : M A) (k : A -> M B) st r st' :
  bind m k st = (r, st') ->
  (exists e, m st = (Err e, st') /\ r = Err e) \/
  (exists a st1, m st = (Ok a, st1) /\ k a st1 = (r, st')).
Proof.
  unfold bind. destruct (m st) as [[a|e] st1]; intros H.
  - right; eauto.
  - left. inversion H; subst; eauto.
Qed.

Lemma bind_ok_inv A B (m : M A) (k : A -> M B) st b st' :
  bind m k st = (Ok b, st') ->
  exists a st1, m st = (Ok a, st1) /\ k a st1 = (Ok b, st').
Proof.
  intros H. apply bind_inv in H as [(e & _ & H)|H]; [discriminate|exact H].
Qed.

Lemma bind_ok A B (m : M A) (k : A -> M B) st a st1 :
  m st = (Ok a, st1) -> bind m k st = k a st1.
Proof. intros H. unfold bind. now rewrite H. Qed.

Lemma bind_err A B (m : M A) (k : A -> M B) st e st1 :
  m st = (Err e, st1) -> bind m k st = (Err e, st1).
Proof. intros H. unfold bind. now rewrite H. Qed.

(** *** Relations every step respects *)

Section Respect.

Variable R : State -> State -> Prop.
Hypothesis R_refl : forall st, R st st.
Hypothesis R_trans : forall st1 st2 st3, R st1 st2 -> R st2 st3 -> R st1 st3.

Lemma respects_ret A (a : A) : respects R (ret a).
Proof. intros st r st' H; inversion H; subst; apply R_refl. Qed.

Lemma respects_raise A e : respects R (@raise env A e).
Proof. intros st r st' H; inversion H; subst; apply R_refl. Qed.

Lemma respects_lift A (x : Result A) : respects R (lift x).
Proof. intros st r st' H; inversion H; subst; apply R_refl. Qed.

Lemma respects_bind A B (m : M A) (k : A -> M B) :
  respects R m -> (forall a, respects R (k a)) -> respects R (bind m k).
Proof.
  intros Hm Hk st r st' H.
  apply bind_inv in H as [(e & H & _)|(a & st1 & H1 & H2)].
  - eapply Hm; eauto.
  - eapply R_trans; [eapply Hm|eapply Hk]; eauto.
Qed.

Lemma respects_dict_getitem d k : respects R (dict_getitem d k).
Proof.
  unfold dict_getitem. destruct (dict_get d k); [apply respects_ret|apply respects_raise].
Qed.

End Respect.

Lemma grows_same st st' :
  messages st' = messages st -> events st' = events st -> grows st st'.
Proof.
  intros Hm He. split; [exists []|exists []]; rewrite ?app_nil_r; auto.
Qed.

Lemma grows_refl st : grows st st.
Proof. now apply grows_same. Qed.

Lemma ran_trans j k st1 st2 st3 : ran j st1 st2 -> ran k st2 st3 -> ran (j + k) st1 st3.
Proof.
  intros [(a1 & Ha1) (e1 & He1 & Hw1 & Hc1)] [(a2 & Ha2) (e2 & He2 & Hw2 & Hc2)].
  split.
  - exists (a1 ++ a2). now rewrite Ha2, Ha1, app_assoc.
  - exists (e1 ++ e2). repeat split.
    + now rewrite He2, He1, app_assoc.
    + unfold writes in *. now rewrite filter_app, Hw1, Hw2.
    + unfold cycles in *. rewrite filter_app, length_app. now subst.
Qed.

Lemma grows_trans st1 st2 st3 : grows st1 st2 -> grows st2 st3 -> grows st1 st3.
Proof. apply (ran_trans 0 0). Qed.

Lemma ran_begun i st : ran 1 st (begun i st).
Proof.
  split; simpl; [exists []; now rewrite app_nil_r|].
  exists [EEpoch i]. auto.
Qed.

Lemma same_locals_refl st : same_locals st st.
Proof. now split. Qed.

Lemma same_locals_trans st1 st2 st3 :
  same_locals st1 st2 -> same_locals st2 st3 -> same_locals st1 st3.
Proof. intros [A1 B1] [A2 B2]. split; congruence. Qed.

(** The primitive steps. *)

Lemma grows_emit e : is_write e = false -> is_epoch e = false -> respects grows (emit e).
Proof.
  intros Hw He st r st' H; inversion H; subst.
  split; simpl; [exists []; now rewrite app_nil_r|].
  exists [e]. repeat split; auto.
  - unfold writes; simpl. now rewrite Hw.
  - unfold cycles; simpl. now rewrite He.
Qed.

Lemma grows_extend_messages items : respects grows (extend_messages items).
Proof.
  intros st r st' H; inversion H; subst.
  split; simpl; [now exists items|exists []; now rewrite app_nil_r].
Qed.

Lemma grows_append_message m : respects grows (append_message m).
Proof. apply (grows_extend_messages [m]). Qed.

Lemma grows_res_append s : respects grows (res_append s).
Proof. intros st r st' H; inversion H; subst. now apply grows_same. Qed.

Lemma grows_set_generated_response g : respects grows (set_generated_response g).
Proof. intros st r st' H; inversion H; subst. now apply grows_same. Qed.

Lemma grows_read_query q : respects grows (read_query q).
Proof. intros st r st' H; inversion H; subst. now apply grows_same. Qed.

Lemma grows_write_query q v : own_object q = true -> respects grows (write_query q v).
Proof.
  intros Hq st r st' H; inversion H; subst.
  destruct q; [now apply grows_same..|discriminate].
Qed.

Lemma grows_flatten_messages : respects grows flatten_messages.
Proof. intros st r st' H; inversion H; subst. now apply grows_same. Qed.

Lemma grows_llm_invoke llm flat fmt tools : respects grows (llm_invoke llm flat fmt tools).
Proof.
  intros st r st' H. unfold llm_invoke in H.
  destruct (backend_invoke (world st) llm flat fmt tools) as [reply w].
  assert (Hst : st' = with_events (with_world st w)
                        (events st ++ [EInvoke llm flat fmt tools reply]))
    by (destruct reply; inversion H; auto).
  subst st'. split; simpl; [exists []; now rewrite app_nil_r|].
  eexists; repeat split; reflexivity.
Qed.

Lemma same_locals_extend_messages items : respects same_locals (extend_messages items).
Proof. intros st r st' H; inversion H; subst. now split. Qed.

Lemma same_locals_append_message m : respects same_locals (append_message m).
Proof. intros st r st' H; inversion H; subst. now split. Qed.

Lemma same_locals_read_query q : respects same_locals (read_query q).
Proof. intros st r st' H; inversion H; subst. now split. Qed.

Lemma same_locals_write_query q v : respects same_locals (write_query q v).
Proof. intros st r st' H; inversion H; subst. destruct q; [| |destruct v]; now split. Qed.

Lemma same_locals_flatten_messages : respects same_locals flatten_messages.
Proof. intros st r st' H; inversion H; subst. now split. Qed.

Lemma same_locals_llm_invoke llm flat fmt tools :
  respects same_locals (llm_invoke llm flat fmt tools).
Proof.
  intros st r st' H. unfold llm_invoke in H.
  destruct (backend_invoke (world st) llm flat fmt tools) as [reply w].
  destruct reply; inversion H; subst; now split.
Qed.

End MonadFacts.

Create HintDb respects.

#[local] Hint Resolve grows_refl grows_trans same_locals_refl same_locals_trans : respects.
#[local] Hint Resolve respects_ret respects_raise respects_lift respects_dict_getitem
  grows_extend_messages grows_append_message grows_res_append
  grows_set_generated_response grows_read_query grows_write_query
  grows_flatten_messages grows_llm_invoke
  same_locals_extend_messages same_locals_append_message same_locals_read_query
  same_locals_write_query same_locals_flatten_messages same_locals_llm_invoke : respects.

(** Walks through a computation written with [bind], [match] and [if]. *)
Ltac respects_walk :=
  repeat first
    [ solve [auto with respects]
    | apply grows_emit; reflexivity
    | apply respects_bind; [solve [eauto with respects] | | intro]
    | match goal with
      | |- respects _ (match ?x with _ => _ end) => destruct x
      | |- respects _ (if ?b then _ else _) => destruct b
      end ].

(** ** Frames of the operations *)

Section Frames.

Context {env : Environment}.

Lemma grows_update_chat_history agent q :
  own_object q = true -> respects grows (update_chat_history agent q).
Proof. intros Hq. unfold update_chat_history. respects_walk. Qed.

Lemma grows_generate agent llm q fmt tools :
  own_object q = true -> respects grows (generate agent llm q fmt tools).
Proof.
  intros Hq. unfold generate. pose proof (grows_update_chat_history agent q Hq). respects_walk.
Qed.

Lemma grows_critique agent llm response original_query :
  respects grows (critique agent llm response original_query).
Proof. now apply grows_generate. Qed.

Lemma grows_grade agent llm query generated critiqued :
  respects grows (grade agent llm query generated critiqued).
Proof.
  pose proof (grows_generate agent llm) as Hg.
  unfold grade, grade_structured, grade_function_calling, grade_plain_text.
  respects_walk.
Qed.

Lemma grows_extract_step generated : respects grows (extract_step generated).
Proof. unfold extract_step. respects_walk. Qed.

Lemma grows_after_extract agent actual : respects grows (after_extract agent actual).
Proof.
  pose proof (grows_critique agent (critique_llm agent)) as Hc.
  pose proof (grows_grade agent (critique_llm agent)) as Hgr.
  unfold after_extract, after_critique.
  respects_walk.
Qed.

(** What remains of [try_body] once [tqdm] has handed it the iteration. *)
Lemma try_body_begun agent i st :
  try_body agent i st =
  (generated <- generate agent (generator_llm agent) TheQuery NoFormat NoTools ;;
   set_generated_response generated ;;
   res_append ("===== Epoch " ++ of_nat (i + 1) ++ " =====" ++ nl ++ nl) ;;
   res_append ("**Generated Response**:" ++ nl ++ nl ++ py_str generated ++ nl ++ nl) ;;
   actual <- extract_step generated ;;
   after_extract agent actual) (begun i st).
Proof. reflexivity. Qed.

Lemma try_body_ran agent i st r st' : try_body agent i st = (r, st') -> ran 1 st st'.
Proof.
  rewrite try_body_begun. intros H.
  apply (ran_trans 1 0 _ _ _ (ran_begun i st)).
  revert H. generalize (begun i st). intros s H. revert s r st' H.
  pose proof (grows_generate agent (generator_llm agent)) as Hg.
  pose proof grows_extract_step as He.
  pose proof (grows_after_extract agent) as Ha.
  change (respects grows
    (generated <- generate agent (generator_llm agent) TheQuery NoFormat NoTools ;;
     set_generated_response generated ;;
     res_append ("===== Epoch " ++ of_nat (i + 1) ++ " =====" ++ nl ++ nl) ;;
     res_append ("**Generated Response**:" ++ nl ++ nl ++ py_str generated ++ nl ++ nl) ;;
     actual <- extract_step generated ;;
     after_extract agent actual)).
  respects_walk.
Qed.

Lemma same_locals_update_chat_history agent q :
  respects same_locals (update_chat_history agent q).
Proof. unfold update_chat_history. respects_walk. Qed.

Lemma same_locals_generate agent llm q fmt tools :
  respects same_locals (generate agent llm q fmt tools).
Proof.
  unfold generate. pose proof (same_locals_update_chat_history agent q). respects_walk.
Qed.

Lemma same_locals_critique agent llm response original_query :
  respects same_locals (critique agent llm response original_query).
Proof. apply same_locals_generate. Qed.

Lemma same_locals_grade agent llm query generated critiqued :
  respects same_locals (grade agent llm query generated critiqued).
Proof.
  pose proof (same_locals_generate agent llm) as Hg.
  unfold grade, grade_structured, grade_function_calling, grade_plain_text.
  respects_walk.
Qed.

End Frames.

(** ** One call of [generate] on a prompt string *)

Section GenerateFacts.

Context {env : Environment}.

Lemma update_chat_history_string agent q st p :
  query_value q st = PyStr p ->
  update_chat_history agent q st =
  match system_prompt_format agent (PyStr p) with
  | Ok c => (Ok tt, with_messages st (messages st ++ [UserMessage (PyStr c)]))
  | Err e => (Err e, st)
  end.
Proof.
  intros Hq. unfold update_chat_history, bind, read_query.
  fold (query_value q st). rewrite Hq. unfold lift, append_message.
  now destruct (system_prompt_format agent (PyStr p)).
Qed.

Lemma update_chat_history_string_ok agent q st p c :
  query_value q st = PyStr p ->
  system_prompt_format agent (PyStr p) = Ok c ->
  update_chat_history agent q st =
  (Ok tt, with_messages st (messages st ++ [UserMessage (PyStr c)])).
Proof.
  intros Hq Hc. rewrite (update_chat_history_string agent q st p Hq). now rewrite Hc.
Qed.

(** A call of [generate] on a prompt string that meets no exception. *)
Lemma generate_string_run agent llm q fmt tools st p c flat v w :
  query_value q st = PyStr p ->
  system_prompt_format agent (PyStr p) = Ok c ->
  flatten (messages st ++ [UserMessage (PyStr c)]) = Ok flat ->
  backend_invoke (world st) llm flat fmt tools = (BContent v, w) ->
  generate agent llm q fmt tools st = (Ok (kept v), after_call st llm fmt tools c flat v w).
Proof.
  intros Hq Hc Hf Hb. unfold generate.
  rewrite (bind_ok _ _ _ _ _ _ _ (update_chat_history_string_ok agent q st p c Hq Hc)).
  unfold bind, flatten_messages, llm_invoke; simpl. rewrite Hf; simpl. rewrite Hb.
  unfold kept, after_call, exchange, append_message.
  destruct (py_truthy v); simpl; [|reflexivity].
  unfold ret, with_messages; simpl. now rewrite <- app_assoc.
Qed.

Lemma generate_string_inv agent llm q fmt tools st p r st' :
  query_value q st = PyStr p ->
  generate agent llm q fmt tools st = (Ok r, st') ->
  exists v, completed_call agent llm fmt tools p v st st' /\ r = kept v.
Proof.
  intros Hq H. unfold generate in H.
  apply bind_ok_inv in H as ([] & st1 & Hu & H).
  rewrite (update_chat_history_string agent q st p Hq) in Hu.
  destruct (system_prompt_format agent (PyStr p)) as [c|e] eqn:Hc; [|discriminate].
  inversion Hu; subst st1; clear Hu.
  apply bind_ok_inv in H as (flat & st2 & Hf & H).
  unfold flatten_messages in Hf; simpl in Hf.
  inversion Hf as [[Hfl Hst]]; subst st2; clear Hf.
  destruct (backend_invoke (world st) llm flat fmt tools) as [reply w] eqn:Hb.
  destruct reply as [v|e].
  - exists v.
    pose proof (generate_string_run agent llm q fmt tools st p c flat v w Hq Hc Hfl Hb) as Hrun.
    unfold generate in Hrun.
    rewrite (bind_ok _ _ _ _ _ _ _ (update_chat_history_string_ok agent q st p c Hq Hc)) in Hrun.
    unfold flatten_messages in Hrun.
    rewrite (bind_ok _ _ _ _ _ flat (with_messages st (messages st ++ [UserMessage (PyStr c)]))) in Hrun
      by (simpl; now rewrite Hfl).
    rewrite Hrun in H. inversion H; subst.
    split; [|reflexivity]. exists c, flat, w. auto.
  - apply bind_ok_inv in H as (x & st3 & Hi & _).
    unfold llm_invoke in Hi; simpl in Hi. rewrite Hb in Hi. discriminate.
Qed.

End GenerateFacts.

(** ** The grading dispatch *)

Section GradeFacts.

Context {env : Environment}.

Lemma completed_call_frame agent llm fmt tools p v st st' :
  completed_call agent llm fmt tools p v st st' ->
  exists c flat,
    system_prompt_format agent (PyStr p) = Ok c /\
    messages st' = messages st ++ exchange c v /\
    events st' = events st ++ [EInvoke llm flat fmt tools (BContent v)] /\
    query_obj st' = query_obj st /\ res st' = res st /\
    generated_response st' = generated_response st.
Proof.
  intros (c & flat & w & Hc & _ & _ & ->). exists c, flat. simpl. auto 10.
Qed.

Lemma grade_function_calling_inv agent llm p st r st' :
  grade_function_calling agent llm p st = (Ok r, st') ->
  exists v, completed_call agent llm NoFormat EvaluateGradeTool p v st st' /\
            r = function_calling_verdict (kept v).
Proof.
  intros H. unfold grade_function_calling in H.
  apply bind_ok_inv in H as (x & st1 & Hg & H).
  apply (generate_string_inv _ _ _ _ _ _ p) in Hg as (v & Hcall & ->); [|reflexivity].
  inversion H; subst. eauto.
Qed.

Lemma grade_plain_text_inv agent llm p st r st' :
  grade_plain_text agent llm p st = (Ok r, st') ->
  exists v s, completed_call agent llm NoFormat NoTools p v st st' /\
              kept v = PyStr s /\ r = PyBool (grade_text s).
Proof.
  intros H. unfold grade_plain_text in H.
  apply bind_ok_inv in H as (x & st1 & Hg & H).
  apply (generate_string_inv _ _ _ _ _ _ p) in Hg as (v & Hcall & ->); [|reflexivity].
  destruct (kept v) as [| | s | | | | |] eqn:K; try discriminate.
  inversion H; subst. eauto.
Qed.

Lemma grade_below_inv agent llm p st r st' :
  (if function_calling_selected llm
   then grade_function_calling agent llm p
   else grade_plain_text agent llm p) st = (Ok r, st') ->
  exists v, graded_below agent llm p v r st st'.
Proof.
  destruct (function_calling_selected llm) eqn:F; intros H.
  - apply grade_function_calling_inv in H as (v & H1 & H2).
    exists v. left. auto.
  - apply grade_plain_text_inv in H as (v & s & H1 & H2 & H3).
    exists v. right. eauto.
Qed.

Lemma grade_structured_inv agent llm p st o st' :
  grade_structured agent llm p st = (Ok o, st') ->
  exists v, completed_call agent llm GradeNodeSchema EvaluateGradeTool p v st st' /\
            ((exists b, v = PyGradeNode b /\ o = Some (PyBool b)) \/
             (is_grade_node v = false /\ o = None)).
Proof.
  intros H. unfold grade_structured in H.
  apply bind_ok_inv in H as (x & st1 & Hg & H).
  apply (generate_string_inv _ _ _ _ _ _ p) in Hg as (v & Hcall & ->); [|reflexivity].
  assert (E : st' = st1 /\ o = match kept v with
                               | PyGradeNode b => Some (PyBool b)
                               | _ => None
                               end)
    by (destruct (kept v); inversion H; auto).
  destruct E as [-> ->]. exists v. split; [assumption|].
  destruct v; try (right; split; [reflexivity|]; unfold kept;
                   match goal with |- context [py_truthy ?x] => destruct (py_truthy x) end;
                   reflexivity).
  left. eauto.
Qed.

Lemma grade_inv agent llm q g c st r st' :
  grade agent llm q g c st = (Ok r, st') ->
  exists replies,
    graded agent llm (grade_prompt (py_str q) (py_str g) (py_str c)) replies r st st'.
Proof.
  intros H. unfold grade in H.
  set (p := grade_prompt (py_str q) (py_str g) (py_str c)) in *.
  apply bind_ok_inv in H as (o & st1 & Hs & H).
  destruct (structured_selected agent llm) eqn:S.
  - apply grade_structured_inv in Hs as (v & Hcall & [(b & -> & ->)|(Hv & ->)]).
    + inversion H; subst. exists [PyGradeNode b]. left. eauto 10.
    + apply grade_below_inv in H as (v2 & H).
      exists [v; v2]. right; left. exists v, v2, st1. auto.
  - inversion Hs; subst. apply grade_below_inv in H as (v & H).
    exists [v]. right; right. eauto.
Qed.

End GradeFacts.

(** ** The loop *)

Section LoopFacts.

Context {env : Environment}.

Lemma keeps_generated_refl st : keeps_generated st st.
Proof. reflexivity. Qed.

Lemma keeps_generated_trans st1 st2 st3 :
  keeps_generated st1 st2 -> keeps_generated st2 st3 -> keeps_generated st1 st3.
Proof. unfold keeps_generated; congruence. Qed.

Lemma keeps_generated_of_locals A (m : M A) :
  respects same_locals m -> respects keeps_generated m.
Proof. intros H st r st' E. exact (proj1 (H st r st' E)). Qed.

Lemma after_extract_keeps_generated agent actual :
  respects keeps_generated (after_extract agent actual).
Proof.
  assert (Hc : forall q, respects keeps_generated (critique agent (critique_llm agent) actual q))
    by (intros; apply keeps_generated_of_locals, same_locals_critique).
  assert (Hg : forall q c, respects keeps_generated (grade agent (critique_llm agent) q actual c))
    by (intros; apply keeps_generated_of_locals, same_locals_grade).
  assert (Hr : forall s, respects keeps_generated (res_append s))
    by (intros s st r st' E; inversion E; reflexivity).
  assert (Hq : forall q, respects keeps_generated (read_query q))
    by (intros q st r st' E; inversion E; reflexivity).
  assert (He : forall e, respects keeps_generated (emit e))
    by (intros e st r st' E; inversion E; reflexivity).
  pose proof keeps_generated_trans as T.
  pose proof keeps_generated_refl as R.
  unfold after_extract, after_critique.
  repeat first
    [ solve [auto using respects_ret]
    | apply respects_bind; [exact T | | intro]
    | match goal with |- respects _ (if ?b then _ else _) => destruct b end ].
Qed.

(** An iteration that completes has bound [generated_response] to the text
    extracted from what [generate] returned. *)
Lemma try_body_generated agent i st b st' :
  try_body agent i st = (Ok b, st') ->
  exists g st1,
    generate agent (generator_llm agent) TheQuery NoFormat NoTools (begun i st)
      = (Ok (PyStr g), st1) /\
    after_extract agent (PyStr (extract_final_answer g)) (recorded i g st1) = (Ok b, st') /\
    generated_response st' = Some (PyStr (extract_final_answer g)).
Proof.
  rewrite try_body_begun. intros H.
  apply bind_ok_inv in H as (generated & st1 & Hgen & H).
  apply bind_ok_inv in H as ([] & s2 & E2 & H). inversion E2; subst s2; clear E2.
  apply bind_ok_inv in H as ([] & s3 & E3 & H). inversion E3; subst s3; clear E3.
  apply bind_ok_inv in H as ([] & s4 & E4 & H). inversion E4; subst s4; clear E4.
  apply bind_ok_inv in H as (actual & s5 & E5 & H).
  destruct generated as [| | g | | | | |]; try discriminate.
  inversion E5; subst; clear E5.
  exists g, st1. split; [assumption|].
  assert (Hst : recorded i g st1 =
                with_generated_response
                  (with_res
                     (with_res (with_generated_response st1 (Some (PyStr g)))
                        (res st1 ++ ("===== Epoch " ++ of_nat (i + 1) ++ " =====" ++ nl ++ nl)))
                     ((res st1 ++ ("===== Epoch " ++ of_nat (i + 1) ++ " =====" ++ nl ++ nl)) ++
                      ("**Generated Response**:" ++ nl ++ nl ++ g ++ nl ++ nl)))
                  (Some (PyStr (extract_final_answer g)))).
  { unfold recorded, generated_block, with_generated_response, with_res.
    cbn [messages query_obj world events res generated_response py_str].
    f_equal. symmetry. apply string_app_assoc. }
  assert (H' : after_extract agent (PyStr (extract_final_answer g)) (recorded i g st1)
               = (Ok b, st')) by (rewrite Hst; exact H).
  split; [assumption|].
  apply after_extract_keeps_generated in H'. exact H'.
Qed.

Lemma rejected_ran agent i k st st' : rejected_cycles agent i k st st' -> ran k st st'.
Proof.
  induction 1 as [i st|i k st st1 st2 Hb _ IH].
  - apply grows_refl.
  - apply (ran_trans 1 k _ _ _ (try_body_ran agent i st _ _ Hb) IH).
Qed.

Lemma loop_rejected agent n i k st st1 :
  rejected_cycles agent i k st st1 ->
  loop agent (k + n) i st = loop agent n (i + k) st1.
Proof.
  induction 1 as [i st|i k st st1 st2 Hb _ IH]; simpl.
  - now rewrite Nat.add_0_r.
  - rewrite Hb, IH. f_equal. lia.
Qed.

Lemma loop_accept agent n i st st' :
  try_body agent i st = (Ok true, st') -> loop agent (S n) i st = (Ok tt, st').
Proof. intros H; simpl. now rewrite H. Qed.

Lemma loop_raise agent n i st e st' :
  try_body agent i st = (Err e, st') ->
  loop agent (S n) i st = (Err e, with_res st' (res st' ++ error_entry e i)).
Proof. intros H; simpl. now rewrite H. Qed.

(** Control leaves the loop normally in two ways only: the iterations are
    used up, or an iteration was accepted. *)
Lemma loop_exit_cases agent n : forall i st st',
  loop agent n i st = (Ok tt, st') ->
  rejected_cycles agent i n st st' \/
  exists k sa, k < n /\ rejected_cycles agent i k st sa /\
               try_body agent (i + k) sa = (Ok true, st').
Proof.
  induction n as [|n IH]; intros i st st' H; simpl in H.
  - inversion H; subst. left; constructor.
  - destruct (try_body agent i st) as [[[|]|e] st1] eqn:E.
    + inversion H; subst. right. exists 0, st. rewrite Nat.add_0_r.
      repeat split; [lia|constructor|assumption].
    + apply IH in H as [H|(k & sa & Hk & Hr & Ha)].
      * left. econstructor; eauto.
      * right. exists (S k), sa. repeat split; [lia|econstructor; eauto|].
        now replace (i + S k) with (S i + k) by lia.
    + discriminate.
Qed.

Lemma finish_bound agent st g :
  generated_response st = Some g -> finish agent st = (Ok g, finished agent st g).
Proof.
  intros H. unfold finish, bind, emit. cbn [generated_response with_events].
  rewrite H. unfold finished, final_text, with_events, with_res.
  cbn [messages query_obj world events res generated_response].
  now rewrite <- app_assoc.
Qed.

Lemma finish_unbound agent st :
  generated_response st = None ->
  finish agent st = (Err (unbound_local_error "generated_response"),
                     with_events st (events st ++ [EMakedirs "prompt_results"])).
Proof.
  intros H. unfold finish, bind, emit. cbn [generated_response with_events]. now rewrite H.
Qed.

Lemma recorded_eq i g st :
  recorded i g st =
  with_generated_response
    (with_res
       (with_res (with_generated_response st (Some (PyStr g)))
          (res st ++ ("===== Epoch " ++ of_nat (i + 1) ++ " =====" ++ nl ++ nl)))
       ((res st ++ ("===== Epoch " ++ of_nat (i + 1) ++ " =====" ++ nl ++ nl)) ++
        ("**Generated Response**:" ++ nl ++ nl ++ g ++ nl ++ nl)))
    (Some (PyStr (extract_final_answer g))).
Proof.
  unfold recorded, generated_block, with_generated_response, with_res.
  cbn [messages query_obj world events res generated_response py_str].
  f_equal. symmetry. apply string_app_assoc.
Qed.

Lemma try_body_after_generate agent i st g st1 :
  generate agent (generator_llm agent) TheQuery NoFormat NoTools (begun i st)
    = (Ok (PyStr g), st1) ->
  try_body agent i st = after_extract agent (PyStr (extract_final_answer g)) (recorded i g st1).
Proof.
  intros H. rewrite try_body_begun, (bind_ok _ _ _ _ _ _ _ H), recorded_eq. reflexivity.
Qed.

Lemma after_extract_after_critique agent actual st critiqued st1 :
  critique agent (critique_llm agent) actual (query_obj st) st = (Ok critiqued, st1) ->
  after_extract agent actual st =
  (grade_output <- grade agent (critique_llm agent) (query_obj st1) actual critiqued ;;
   res_append (graded_block grade_output) ;;
   if py_truthy grade_output then ret true
   else emit (EMakedirs "results") ;; res_append (repeat "=" 100 ++ nl ++ nl) ;; ret false)
    (with_res st1 (res st1 ++ critiqued_block critiqued)).
Proof.
  intros H. unfold after_extract.
  unfold bind at 1. cbn [read_query]. rewrite (bind_ok _ _ _ _ _ _ _ H). reflexivity.
Qed.

Lemma after_extract_after_grade agent actual st critiqued st1 grade_output st2 :
  critique agent (critique_llm agent) actual (query_obj st) st = (Ok critiqued, st1) ->
  grade agent (critique_llm agent) (query_obj st1) actual critiqued
        (with_res st1 (res st1 ++ critiqued_block critiqued)) = (Ok grade_output, st2) ->
  after_extract agent actual st = (Ok (py_truthy grade_output), closed grade_output st2).
Proof.
  intros Hc Hg. rewrite (after_extract_after_critique _ _ _ _ _ Hc), (bind_ok _ _ _ _ _ _ _ Hg).
  unfold closed, bind, res_append, emit, ret. destruct (py_truthy grade_output); reflexivity.
Qed.

(** An iteration completes exactly when its three steps return. *)
Lemma try_body_ok_iff agent i st b st' :
  try_body agent i st = (Ok b, st') <->
  exists g critiqued grade_output s,
    cycle_graded agent i st g critiqued grade_output s /\
    b = py_truthy grade_output /\ st' = closed grade_output s.
Proof.
  split.
  - intros H. destruct (try_body_generated _ _ _ _ _ H) as (g & st1 & Hgen & Ha & _).
    pose proof Ha as Ha'. unfold after_extract, after_critique in Ha'.
    apply bind_ok_inv in Ha' as (q & s0 & Hq & Ha'). inversion Hq; subst q s0; clear Hq.
    apply bind_ok_inv in Ha' as (c & st2 & Hc & Ha').
    assert (Hc1 : critique agent (critique_llm agent) (PyStr (extract_final_answer g))
                           (query_obj st1) (recorded i g st1) = (Ok c, st2)) by exact Hc.
    apply bind_ok_inv in Ha' as ([] & s3 & E3 & Ha'). inversion E3; subst s3; clear E3.
    apply bind_ok_inv in Ha' as (q & s4 & Hq & Ha'). inversion Hq; subst q s4; clear Hq.
    apply bind_ok_inv in Ha' as (r & st3 & Hg & _).
    assert (Hg' : grade agent (critique_llm agent) (query_obj st2)
                        (PyStr (extract_final_answer g)) c
                        (with_res st2 (res st2 ++ critiqued_block c)) = (Ok r, st3)) by exact Hg.
    exists g, c, r, st3. split; [econstructor; eauto|].
    assert (Hc2 : critique agent (critique_llm agent) (PyStr (extract_final_answer g))
                           (query_obj (recorded i g st1)) (recorded i g st1) = (Ok c, st2))
      by exact Hc.
    rewrite (after_extract_after_grade _ _ _ _ _ _ _ Hc2 Hg') in Ha.
    inversion Ha; auto.
  - intros (g & c & r & s & Hcy & -> & ->). destruct Hcy as [g st1 c st2 r st3 Hgen Hc Hg].
    rewrite (try_body_after_generate _ _ _ _ _ Hgen).
    exact (after_extract_after_grade _ _ _ _ _ _ _ Hc Hg).
Qed.

(** A step that raises makes the body of the iteration raise the same
    exception, in the state the step left. *)
Lemma try_body_raises agent i st e st' :
  step_raises agent i st e st' -> try_body agent i st = (Err e, st').
Proof.
  intros [s Hgen|g st1 s Hgen Hc|g st1 c st2 s Hgen Hc Hg].
  - rewrite try_body_begun. now apply bind_err.
  - rewrite (try_body_after_generate _ _ _ _ _ Hgen).
    unfold after_extract. unfold bind at 1. cbn [read_query]. now apply bind_err.
  - rewrite (try_body_after_generate _ _ _ _ _ Hgen).
    rewrite (after_extract_after_critique _ _ _ _ _ Hc). now apply bind_err.
Qed.

End LoopFacts.

(** ** Runs of [invoke] *)

Section InvokeFacts.

Context {env : Environment}.

Lemma rejected_snoc agent k : forall i st st',
  rejected_cycles agent i (S k) st st' ->
  exists s, rejected_cycles agent i k st s /\ try_body agent (i + k) s = (Ok false, st').
Proof.
  induction k as [|k IH]; intros i st st' H.
  - inversion H as [|? ? ? st1 ? Hb Hr]; subst. inversion Hr; subst.
    exists st. rewrite Nat.add_0_r. split; [constructor|assumption].
  - inversion H as [|? ? ? st1 ? Hb Hr]; subst.
    apply IH in Hr as (s & Hr & Hl).
    exists s. split; [econstructor; eauto|].
    now replace (i + S k) with (S i + k) by lia.
Qed.

Lemma ran_cycles k st st' : ran k st st' -> cycles (events st') = cycles (events st) + k.
Proof.
  intros [_ (ev & -> & _ & <-)]. unfold cycles. now rewrite filter_app, length_app.
Qed.

Lemma ran_writes k st st' : ran k st st' -> writes (events st') = writes (events st).
Proof.
  intros [_ (ev & -> & Hw & _)]. unfold writes in *. now rewrite filter_app, Hw, app_nil_r.
Qed.

Lemma ran_messages k st st' : ran k st st' -> exists added, messages st' = messages st ++ added.
Proof. now intros [H _]. Qed.

Lemma invoke_unfold agent st :
  invoke agent st =
  (loop agent (Z.to_nat (max_iterations agent)) 0 ;; finish agent) (entered st).
Proof. reflexivity. Qed.

Lemma cycle_graded_generated agent i st g critiqued grade_output s :
  cycle_graded agent i st g critiqued grade_output s ->
  generated_response (closed grade_output s) = Some (PyStr (extract_final_answer g)).
Proof.
  intros H.
  assert (Hb : try_body agent i st = (Ok (py_truthy grade_output), closed grade_output s))
    by (apply try_body_ok_iff; eauto 10).
  destruct H as [g st1 c st2 r st3 Hgen Hc Hg].
  apply try_body_generated in Hb as (g' & st1' & Hgen' & _ & Hb).
  rewrite Hgen in Hgen'. now inversion Hgen'; subst.
Qed.


(** C1: when the grading step returns true for the first time on iteration
    [k], with [k] at most [max_iterations], the run performs exactly [k]
    generate / critique / grade cycles and stops: after the accepting
    grade the log only receives the creation of the trace directory and
    the write of the trace file, so no backend call follows it; and
    control leaves the loop normally only by exhaustion or by such an
    acceptance. *)
Theorem invoke_stops_at_acceptance agent k st0 st1 g critiqued grade_output sg :
  1 <= k <= Z.to_nat (max_iterations agent) ->
  rejected_cycles agent 0 (k - 1) (entered st0) st1 ->
  cycle_graded agent (k - 1) st1 g critiqued grade_output sg ->
  py_truthy grade_output = true ->
  let answer := PyStr (extract_final_answer g) in
  let final := finished agent (closed grade_output sg) answer in
  invoke agent st0 = (Ok answer, final) /\
  cycles (events final) = cycles (events st0) + k /\
  events final =
    events sg ++ [EMakedirs "prompt_results"; EWrite (save_path agent) (res final)] /\
  backend_calls (events final) = backend_calls (events sg) /\
  messages final = messages sg /\
  world final = world sg /\
  (forall n i s s',
      loop agent n i s = (Ok tt, s') ->
      rejected_cycles agent i n s s' \/
      exists j sa, j < n /\ rejected_cycles agent i j s sa /\
                   try_body agent (i + j) sa = (Ok true, s')).
Proof.
  intros Hk Hrej Hcy Htrue answer final.
  assert (Hb : try_body agent (k - 1) st1 = (Ok true, closed grade_output sg))
    by (apply try_body_ok_iff; exists g, critiqued, grade_output, sg; auto).
  assert (Hclosed : closed grade_output sg
                    = with_res sg (res sg ++ graded_block grade_output))
    by (unfold closed; now rewrite Htrue).
  assert (Hloop : loop agent (Z.to_nat (max_iterations agent)) 0 (entered st0)
                  = (Ok tt, closed grade_output sg)).
  { replace (Z.to_nat (max_iterations agent))
      with ((k - 1) + S (Z.to_nat (max_iterations agent) - k)) by lia.
    rewrite (loop_rejected _ _ _ _ _ _ Hrej). now apply loop_accept. }
  repeat split.
  - rewrite invoke_unfold, (bind_ok _ _ _ _ _ _ _ Hloop).
    apply finish_bound. exact (cycle_graded_generated _ _ _ _ _ _ _ Hcy).
  - pose proof (ran_cycles _ _ _ (rejected_ran _ _ _ _ _ Hrej)) as C1.
    pose proof (ran_cycles _ _ _ (try_body_ran _ _ _ _ _ Hb)) as C2.
    unfold final, finished; cbn [events with_events with_res].
    unfold cycles in *. rewrite filter_app, length_app. cbn [filter is_epoch List.length].
    cbn [events entered with_generated_response with_res] in C1. lia.
  - unfold final, finished. rewrite Hclosed. reflexivity.
  - unfold final, finished. rewrite Hclosed. cbn [events with_events with_res].
    unfold backend_calls. rewrite filter_app. cbn [filter is_invoke]. apply app_nil_r.
  - unfold final, finished. now rewrite Hclosed.
  - unfold final, finished. now rewrite Hclosed.
  - apply loop_exit_cases.
Qed.

(** C2 (as amended): when the grading step returns false on each of the
    [n] iterations, [n] being [max_iterations] and positive, and no
    iteration raises, the run performs exactly [n] cycles, writes the
    trace and returns the text that the marker extraction leaves of the
    response generated in iteration [n]. *)
Theorem invoke_exhausts agent n st0 stn :
  0 < n ->
  Z.to_nat (max_iterations agent) = n ->
  rejected_cycles agent 0 n (entered st0) stn ->
  exists s g critiqued grade_output sg,
    rejected_cycles agent 0 (n - 1) (entered st0) s /\
    cycle_graded agent (n - 1) s g critiqued grade_output sg /\
    py_truthy grade_output = false /\
    stn = closed grade_output sg /\
    invoke agent st0 = (Ok (PyStr (extract_final_answer g)),
                        finished agent stn (PyStr (extract_final_answer g))) /\
    cycles (events (finished agent stn (PyStr (extract_final_answer g))))
      = cycles (events st0) + n.
Proof.
  intros Hn HN Hrej.
  destruct n as [|m]; [lia|].
  destruct (rejected_snoc _ _ _ _ _ Hrej) as (s & Hs & Hlast).
  cbn [Nat.add] in Hlast.
  apply try_body_ok_iff in Hlast as (g & c & r & sg & Hcy & Hr & ->).
  exists s, g, c, r, sg.
  replace (S m - 1) with m by lia.
  repeat split; auto.
  - rewrite invoke_unfold, HN.
    assert (Hloop : loop agent (S m) 0 (entered st0) = (Ok tt, closed r sg)).
    { replace (S m) with (S m + 0) by lia. now rewrite (loop_rejected _ _ _ _ _ _ Hrej). }
    rewrite (bind_ok _ _ _ _ _ _ _ Hloop).
    apply finish_bound. exact (cycle_graded_generated _ _ _ _ _ _ _ Hcy).
  - pose proof (ran_cycles _ _ _ (rejected_ran _ _ _ _ _ Hrej)) as C.
    unfold finished; cbn [events with_events with_res].
    unfold cycles in *. rewrite filter_app, length_app. cbn [filter is_epoch List.length].
    cbn [events entered with_generated_response with_res] in C. lia.
Qed.

(** C6: when a generate, critique or grade step of an iteration raises an
    exception that the handler of line 39 catches, the run adds to the
    trace it holds in memory the entry that names the exception (its
    text) and the iteration (counted from one), and raises the same
    exception: but for that entry the state is the one the failing step
    left (no retry, no further iteration, no backend call), and no file
    is written, so the trace is not persisted. *)
Theorem invoke_fails_fast agent j st0 st1 e st2 :
  j < Z.to_nat (max_iterations agent) ->
  is_exception e = true ->
  rejected_cycles agent 0 j (entered st0) st1 ->
  step_raises agent j st1 e st2 ->
  exists failed,
    invoke agent st0 = (Err e, failed) /\
    failed = with_res st2 (res st2 ++ nl ++ nl ++ "**Error occurred " ++ exn_text e
                                   ++ " in iteration " ++ of_nat (j + 1) ++ "**" ++ nl ++ nl) /\
    writes (events failed) = writes (events st0) /\
    cycles (events failed) = cycles (events st0) + S j.
Proof.
  intros Hj _ Hrej Hraise.
  pose proof (try_body_raises _ _ _ _ _ Hraise) as Hb.
  pose proof (ran_trans _ _ _ _ _ (rejected_ran _ _ _ _ _ Hrej) (try_body_ran _ _ _ _ _ Hb)) as R.
  eexists. split; [|split; [reflexivity|split]].
  - rewrite invoke_unfold. apply bind_err.
    replace (Z.to_nat (max_iterations agent))
      with (j + S (Z.to_nat (max_iterations agent) - S j)) by lia.
    rewrite (loop_rejected _ _ _ _ _ _ Hrej). cbn [Nat.add].
    exact (loop_raise _ _ _ _ _ _ Hb).
  - apply (ran_writes _ _ _ R).
  - cbn [events with_res]. rewrite (ran_cycles _ _ _ R).
    cbn [events entered with_generated_response with_res]. lia.
Qed.

End InvokeFacts.

(** ** The conversation-history update *)

Section HistoryFacts.

Context {env : Environment}.

Lemma update_chat_history_list agent q st items :
  query_value q st = PyList items ->
  update_chat_history agent q st = update_on_list agent q items st.
Proof.
  intros Hq. unfold update_chat_history, update_on_list, bind at 1, read_query.
  fold (query_value q st). rewrite Hq.
  destruct (last_item items) as [[| | | |d| | |]|]; try reflexivity.
  unfold bind at 1, dict_getitem.
  destruct (dict_get d "role") as [role|]; [|reflexivity].
  unfold ret at 1.
  destruct (py_eq_str role "user"); [|reflexivity].
  unfold bind at 1. unfold bind at 1.
  destruct (dict_get d "content") as [content|]; [|reflexivity].
  unfold ret at 1. unfold bind at 1, lift.
  destruct (system_prompt_format agent content) as [c|e]; [|reflexivity].
  unfold bind, write_query, write_back, ret, extend_messages.
  destruct q; reflexivity.
Qed.

Lemma update_chat_history_other agent q st :
  (forall p, query_value q st <> PyStr p) ->
  (forall items, query_value q st <> PyList items) ->
  update_chat_history agent q st = (Ok tt, st).
Proof.
  intros Hs Hl. unfold update_chat_history, bind, read_query.
  fold (query_value q st).
  destruct (query_value q st) as [| |p|items| | | |]; try reflexivity.
  - now elim (Hs p).
  - now elim (Hl items).
Qed.

Lemma messages_write_back q v st :
  own_object q = true -> messages (write_back q v st) = messages st.
Proof. destruct q; [reflexivity..|discriminate]. Qed.

Lemma own_object_not_aliased q st : own_object q = true -> aliased_replacement q st = false.
Proof. destruct q; [reflexivity..|discriminate]. Qed.

(** What one call of [update_chat_history] adds to the conversation
    state, line 64 not being an assignment to the history. *)
Lemma update_chat_history_added agent q st r st' :
  aliased_replacement q st = false ->
  update_chat_history agent q st = (r, st') ->
  exists added,
    messages st' = messages st ++ added /\
    events st' = events st /\
    (added = [] \/
     (exists c, added = [UserMessage (PyStr c)]) \/
     (exists items, query_value q st = PyList items /\
        (added = items \/ exists c, added = set_last items (UserMessage (PyStr c))))).
Proof.
  intros Ha H.
  assert (Hnil : forall s : State, exists added,
             messages s = messages s ++ added /\ events s = events s /\
             (added = [] \/
              (exists c, added = [UserMessage (PyStr c)]) \/
              (exists items, query_value q st = PyList items /\
                 (added = items \/
                  exists c, added = set_last items (UserMessage (PyStr c))))))
    by (intros s; exists []; split; [now rewrite app_nil_r|split; [reflexivity|now left]]).
  destruct (query_value q st) as [| |p|items| | | |] eqn:Hq.
  3: { rewrite (update_chat_history_string agent q st p Hq) in H.
       destruct (system_prompt_format agent (PyStr p)) as [c|e]; inversion H; subst.
       - exists [UserMessage (PyStr c)]. split; [reflexivity|].
         split; [reflexivity|]. right; left; eauto.
       - apply Hnil. }
  3: { rewrite (update_chat_history_list agent q st items Hq) in H.
       unfold update_on_list in H.
       destruct (last_item items) as [[| | | |d| | |]|] eqn:El;
         try (inversion H; subst; apply Hnil).
       - destruct (dict_get d "role") as [role|] eqn:Er;
           [|inversion H; subst; apply Hnil].
         destruct (py_eq_str role "user") eqn:Eu.
         + destruct (dict_get d "content") as [content|];
             [|inversion H; subst; apply Hnil].
           destruct (system_prompt_format agent content) as [c|e];
             [|inversion H; subst; apply Hnil].
           assert (Hown : own_object q = true).
           { destruct q; try reflexivity. exfalso.
             cbn [query_value] in Hq. injection Hq as Hq. subst items.
             cbn [aliased_replacement] in Ha. rewrite El in Ha.
             cbn [is_user_role_mapping] in Ha. rewrite Er, Eu in Ha. discriminate. }
           inversion H; subst.
           exists (set_last items (UserMessage (PyStr c))).
           split; [|split].
           * unfold with_messages; cbn [messages].
             now rewrite (messages_write_back _ _ _ Hown).
           * destruct q; try discriminate; reflexivity.
           * right; right. exists items. split; [reflexivity|]. right; eauto.
         + inversion H; subst. exists items. split; [reflexivity|].
           split; [reflexivity|]. right; right. exists items. auto.
       - inversion H; subst. exists items. split; [reflexivity|].
         split; [reflexivity|]. right; right. exists items. auto. }
  all: rewrite update_chat_history_other in H
    by (intros ? E; rewrite Hq in E; discriminate).
  all: inversion H; subst; apply Hnil.
Qed.

Lemma grows_added st st' added :
  messages st' = messages st ++ added -> events st' = events st -> grows st st'.
Proof.
  intros Hm He. split; [now exists added|].
  exists []. rewrite app_nil_r. repeat split; auto.
Qed.

(** After its first line [generate] does not look at the query. *)
Lemma generate_after_update agent llm q fmt tools st st1 :
  update_chat_history agent q st = (Ok tt, st1) ->
  generate agent llm q fmt tools st = generate agent llm (Fresh PyNone) fmt tools st1.
Proof. intros H. unfold generate, bind at 1. now rewrite H. Qed.

Lemma generate_grows agent llm q fmt tools st r st' :
  aliased_replacement q st = false ->
  generate agent llm q fmt tools st = (r, st') -> grows st st'.
Proof.
  intros Ha H.
  destruct (update_chat_history agent q st) as [[[]|e] st1] eqn:Hu.
  - rewrite (generate_after_update _ _ _ _ _ _ _ Hu) in H.
    apply grows_generate in H; [|reflexivity].
    apply (update_chat_history_added _ _ _ _ _ Ha) in Hu as (added & Hm & He & _).
    exact (grows_trans _ _ _ (grows_added _ _ _ Hm He) H).
  - unfold generate, bind at 1 in H. rewrite Hu in H. inversion H; subst.
    apply (update_chat_history_added _ _ _ _ _ Ha) in Hu as (added & Hm & He & _).
    exact (grows_added _ _ _ Hm He).
Qed.

Lemma loop_ran agent n : forall i st r st',
  loop agent n i st = (r, st') -> exists k, k <= n /\ ran k st st'.
Proof.
  induction n as [|n IH]; intros i st r st' H; simpl in H.
  - inversion H; subst. exists 0. split; [lia|apply grows_refl].
  - destruct (try_body agent i st) as [[[|]|e] st1] eqn:E;
      pose proof (try_body_ran agent i _ _ _ E) as G.
    + inversion H; subst. exists 1. split; [lia|assumption].
    + apply IH in H as (k & Hk & R). exists (1 + k). split; [lia|].
      exact (ran_trans _ _ _ _ _ G R).
    + inversion H; subst. exists 1. split; [lia|].
      apply (ran_trans 1 0 _ _ _ G). now apply grows_same.
Qed.

Lemma invoke_messages agent st r st' :
  invoke agent st = (r, st') -> exists added, messages st' = messages st ++ added.
Proof.
  rewrite invoke_unfold. intros H.
  apply bind_inv in H as [(e & H & _)|([] & s1 & Hl & Hf)].
  - apply loop_ran in H as (k & _ & R). exact (ran_messages _ _ _ R).
  - apply loop_ran in Hl as (k & _ & R). apply ran_messages in R as (added & R).
    cbn [messages entered with_generated_response with_res] in R.
    exists added. rewrite <- R.
    destruct (generated_response s1) as [g|] eqn:G.
    + rewrite (finish_bound _ _ _ G) in Hf. now inversion Hf.
    + rewrite (finish_unbound _ _ G) in Hf. now inversion Hf.
Qed.

(** C8 (as amended): the conversation state is append-only in every call
    but one.  Unless the query is the list [agent.messages] itself and
    ends with a raw mapping of role [user], after a call of
    [update_chat_history] the history is the old one followed by one block
    of added entries (nothing, one formatted user message, or the entries
    of the list query), so its length does not decrease and the entries
    already present keep their content and order; the same holds after
    [generate], and after [critique] and [grade], which build their own
    prompt, whether they return or raise. *)
Theorem conversation_state_append_only agent llm q fmt tools v1 v2 v3 st :
  aliased_replacement q st = false ->
  (forall r st', update_chat_history agent q st = (r, st') ->
     exists added,
       messages st' = messages st ++ added /\
       List.length (messages st) <= List.length (messages st') /\
       (added = [] \/
        (exists c, added = [UserMessage (PyStr c)]) \/
        (exists items, query_value q st = PyList items /\
           (added = items \/ exists c, added = set_last items (UserMessage (PyStr c)))))) /\
  (forall r st', generate agent llm q fmt tools st = (r, st') ->
     exists added, messages st' = messages st ++ added /\
                   List.length (messages st) <= List.length (messages st')) /\
  (forall r st', critique agent llm v1 v2 st = (r, st') ->
     exists added, messages st' = messages st ++ added) /\
  (forall r st', grade agent llm v1 v2 v3 st = (r, st') ->
     exists added, messages st' = messages st ++ added).
Proof.
  intros Ha. split; [|split; [|split]].
  - intros r st' H.
    apply (update_chat_history_added _ _ _ _ _ Ha) in H as (added & Hm & _ & Hc).
    exists added. split; [assumption|]. split; [|assumption].
    rewrite Hm, length_app. lia.
  - intros r st' H. apply (generate_grows _ _ _ _ _ _ _ _ Ha) in H as [(added & Hm) _].
    exists added. split; auto. rewrite Hm, length_app. lia.
  - intros r st' H. now apply grows_critique in H as [Hm _].
  - intros r st' H. now apply grows_grade in H as [Hm _].
Qed.

(** The call the amended C8 leaves out: the query is [agent.messages]
    itself and ends with a raw mapping of role [user].  Line 64 then
    assigns the formatted message to the last entry of the history, and
    line 65 extends the list with itself. *)
Lemma update_chat_history_aliased agent st d role content c :
  last_item (messages st) = Some (PyDict d) ->
  dict_get d "role" = Some role ->
  py_eq_str role "user" = true ->
  dict_get d "content" = Some content ->
  system_prompt_format agent content = Ok c ->
  let replaced := set_last (messages st) (UserMessage (PyStr c)) in
  update_chat_history agent TheMessages st = (Ok tt, with_messages st (replaced ++ replaced)).
Proof.
  intros Hl Hr Hu Hc Hf replaced.
  rewrite (update_chat_history_list agent TheMessages st (messages st) eq_refl).
  unfold update_on_list. now rewrite Hl, Hr, Hu, Hc, Hf.
Qed.

(** C7 (as amended): for a list query whose last element is neither a
    formatted user message nor a mapping with role [user]: when that
    element is not a mapping at all, the update does nothing and raises
    nothing; when it is a mapping with another role, the update extends
    the conversation state with the whole list, unmodified, and raises
    nothing. *)
Theorem update_chat_history_other_shapes agent q st items last :
  query_value q st = PyList items ->
  last_item items = Some last ->
  is_user_message last = false ->
  is_user_role_mapping last = false ->
  (is_dict last = false -> update_chat_history agent q st = (Ok tt, st)) /\
  (forall d role, last = PyDict d -> dict_get d "role" = Some role ->
     update_chat_history agent q st
     = (Ok tt, with_messages st (messages st ++ items))).
Proof.
  intros Hq Hlast Hmsg Hrole.
  rewrite (update_chat_history_list agent q st items Hq).
  unfold update_on_list. rewrite Hlast. split.
  - intros Hd. destruct last; try reflexivity; discriminate.
  - intros d role -> Hr. cbn [is_user_role_mapping] in Hrole.
    rewrite Hr in *. now rewrite Hrole.
Qed.

End HistoryFacts.

(** ** The marker rule, the grading rule and the trace path *)

Section RuleFacts.

Context {env : Environment}.

(** C5 (as amended): a response without the marker is used unmodified.
    For a response with the marker, the extraction yields the text that
    starts thirteen characters after the start of the last occurrence of
    the marker: the text following the marker and the one character after
    it.  When that character is a colon this is exactly the substring
    following the marker and its trailing colon.  The extracted text is
    the response [critique] is called with. *)
Theorem final_answer_extraction agent i response :
  (contains final_answer_marker response = false ->
   extract_final_answer response = response) /\
  (forall pre post,
      response = (pre ++ final_answer_marker ++ post)%string ->
      contains final_answer_marker (drop 1 (final_answer_marker ++ post)) = false ->
      extract_final_answer response = drop 1 post /\
      (forall rest, post = String ":" rest ->
                    extract_final_answer response = rest /\
                    spec_final_answer response = rest)) /\
  (forall st st1,
      generate agent (generator_llm agent) TheQuery NoFormat NoTools (begun i st)
        = (Ok (PyStr response), st1) ->
      try_body agent i st =
      (critiqued <- critique agent (critique_llm agent)
                             (PyStr (extract_final_answer response)) (query_obj st1) ;;
       after_critique agent (PyStr (extract_final_answer response)) critiqued)
        (recorded i response st1)).
Proof.
  split; [apply extract_no_marker|split].
  - intros pre post -> Hlast.
    pose proof (extract_at_last_marker pre post Hlast) as E.
    split; [exact E|].
    intros rest ->. split; [exact E|].
    unfold spec_final_answer.
    change "Final Answer"%string with final_answer_marker.
    rewrite (after_last_some final_answer_marker pre _
               (prefix_app final_answer_marker _) Hlast).
    reflexivity.
  - intros st st1 H. rewrite (try_body_after_generate _ _ _ _ _ H). reflexivity.
Qed.

Lemma grade_text_spec reply : grade_text reply = spec_grade_rule reply.
Proof.
  unfold grade_text, spec_grade_rule.
  destruct (String.eqb (lower (strip reply)) "true"); [reflexivity|].
  now destruct (contains "true" (lower (strip reply)) &&
                negb (contains "false" (lower (strip reply)))).
Qed.

(** The plain-text path on a reply with text [reply]: the rule of the
    specification on a non-empty reply, an [AttributeError] on the empty
    one, for which [generate] returns [None]. *)
Lemma grade_plain_text_reply agent llm query generated critiqued st c flat w reply :
  structured_selected agent llm = false ->
  function_calling_selected llm = false ->
  system_prompt_format agent
    (PyStr (grade_prompt (py_str query) (py_str generated) (py_str critiqued))) = Ok c ->
  flatten (messages st ++ [UserMessage (PyStr c)]) = Ok flat ->
  backend_invoke (world st) llm flat NoFormat NoTools = (BContent (PyStr reply), w) ->
  fst (grade agent llm query generated critiqued st) =
  if String.eqb reply EmptyString
  then Err (attribute_error PyNone "strip")
  else Ok (PyBool (spec_grade_rule reply)).
Proof.
  intros Hs Hf Hc Hfl Hb. unfold grade. rewrite Hs, Hf.
  unfold bind at 1, ret at 1. unfold grade_plain_text.
  rewrite (bind_ok _ _ _ _ _ _ _
             (generate_string_run agent llm (Fresh (PyStr _)) NoFormat NoTools st _ c flat
                                  (PyStr reply) w eq_refl Hc Hfl Hb)).
  unfold kept; cbn [py_truthy].
  destruct (String.eqb reply EmptyString); cbn [negb]; [reflexivity|].
  cbn [fst ret]. now rewrite grade_text_spec.
Qed.

(** C9: the path of the trace file is the pattern of the specification
    over the agent's identifying fields; the short name of a model is what
    follows its last [/], the session prefix what precedes the first [-];
    agents with the same identifying fields get the same path; and a run
    that returns has written its trace to that path, once. *)
Theorem trace_path_deterministic agent :
  save_path agent =
    spec_trace_path (prompt_type agent) (prompt_pattern agent)
                    (model_name (generator_llm agent)) (model_name (critique_llm agent))
                    (session_id agent) /\
  (forall a b, contains "/" b = false -> short_name (a ++ "/" ++ b) = b) /\
  (forall m, contains "/" m = false -> short_name m = m) /\
  (forall a b, contains "-" a = false -> session_prefix (a ++ "-" ++ b) = a) /\
  (forall s, contains "-" s = false -> session_prefix s = s) /\
  (forall agent',
      prompt_type agent' = prompt_type agent ->
      prompt_pattern agent' = prompt_pattern agent ->
      model_name (generator_llm agent') = model_name (generator_llm agent) ->
      model_name (critique_llm agent') = model_name (critique_llm agent) ->
      session_id agent' = session_id agent ->
      save_path agent' = save_path agent) /\
  (forall st v st',
      invoke agent st = (Ok v, st') ->
      writes (events st') = writes (events st) ++ [EWrite (save_path agent) (res st')]).
Proof.
  split; [reflexivity|].
  split; [|split; [|split; [|split; [|split]]]].
  - intros a b Hb. unfold short_name. cbn [append].
    rewrite split_app, last_app_nonempty by apply split_nonempty.
    now rewrite (split_absent _ _ Hb).
  - intros m Hm. unfold short_name. now rewrite (split_absent _ _ Hm).
  - intros a b Ha. unfold session_prefix. cbn [append].
    rewrite split_app, (split_absent _ _ Ha). reflexivity.
  - intros s Hs. unfold session_prefix. now rewrite (split_absent _ _ Hs).
  - intros agent' H1 H2 H3 H4 H5. unfold save_path. now rewrite H1, H2, H3, H4, H5.
  - intros st v st' H. rewrite invoke_unfold in H.
    apply bind_ok_inv in H as ([] & s1 & Hl & Hf).
    apply loop_ran in Hl as (k & _ & R). apply ran_writes in R.
    cbn [events entered with_generated_response with_res] in R.
    destruct (generated_response s1) as [g|] eqn:G.
    + rewrite (finish_bound _ _ _ G) in Hf. inversion Hf; subst.
      unfold finished; cbn [events res with_events with_res].
      unfold writes in *. rewrite filter_app, R. reflexivity.
    + rewrite (finish_unbound _ _ G) in Hf. discriminate.
Qed.

End RuleFacts.

(** C5 as worded fails: the marker is followed by a space, not a colon; the
    substring following the marker starts with that space, which the
    extraction drops. *)
Lemma final_answer_without_colon :
  contains final_answer_marker "Final Answer 42" = true /\
  spec_final_answer "Final Answer 42" = " 42" /\
  extract_final_answer "Final Answer 42" = "42" /\
  String.eqb (extract_final_answer "Final Answer 42") (spec_final_answer "Final Answer 42")
    = false.
Proof. repeat split; reflexivity. Qed.

(** The inputs the specification lists for the normalization. *)
Example grade_text_listed :
  grade_text "True" = true /\ grade_text "false." = false /\
  grade_text "I think true" = true /\ grade_text "true or false" = false.
Proof. repeat split; reflexivity. Qed.

(** C4 at the empty reply: under the plain-text path [generate] returns
    [None] for a reply without content, and [grade] raises on
    [grade_result.strip()] where the claim has it return false. *)
Theorem grade_plain_text_empty_reply_raises :
  structured_selected demo_plain (critique_llm demo_plain) = false /\
  function_calling_selected (critique_llm demo_plain) = false /\
  fst (grade demo_plain (critique_llm demo_plain) demo_query (PyStr " 4") (PyStr "4")
             (start demo_query [BContent (PyStr EmptyString)]))
  = Err (mkExn "AttributeError" "'NoneType' object has no attribute 'strip'") /\
  spec_grade_rule EmptyString = false.
Proof. repeat split; reflexivity. Qed.

(** The same under the function-calling path, which tests the type of the
    result first: the empty reply grades as false. *)
Example grade_function_calling_empty_reply :
  fst (grade (demo_agent 3 (tool_llm "openai/gpt-4o")) (tool_llm "openai/gpt-4o")
             demo_query (PyStr " 4") (PyStr "4")
             (start demo_query [BContent (PyStr EmptyString)]))
  = Ok (PyBool false).
Proof. reflexivity. Qed.

(** ** Grading and the conversation state *)

Section GradeHistory.

Context {env : Environment}.

(** A call of [generate] on a prompt string calls the backend at most
    once, with the arguments it was given. *)
Lemma generate_string_trace agent llm q fmt tools st p r st' :
  query_value q st = PyStr p ->
  generate agent llm q fmt tools st = (r, st') ->
  events st' = events st \/
  exists flat reply, events st' = events st ++ [EInvoke llm flat fmt tools reply].
Proof.
  intros Hq H. unfold generate in H.
  apply bind_inv in H as [(e & H & _)|([] & s1 & Hu & H)].
  - rewrite (update_chat_history_string agent q st p Hq) in H.
    destruct (system_prompt_format agent (PyStr p)); inversion H; subst; auto.
  - rewrite (update_chat_history_string agent q st p Hq) in Hu.
    destruct (system_prompt_format agent (PyStr p)) as [c|e]; inversion Hu; subst; clear Hu.
    apply bind_inv in H as [(e & H & _)|(flat & s2 & Hf & H)].
    + inversion H; subst. auto.
    + inversion Hf; subst; clear Hf.
      right. exists flat.
      unfold bind, llm_invoke in H. cbn [world events with_messages] in H.
      destruct (backend_invoke (world st) llm flat fmt tools) as [reply w].
      exists reply.
      destruct reply as [v|e]; [destruct (py_truthy v)|]; inversion H; subst; reflexivity.
Qed.

(** C3 (as amended): when the structured-schema strategy is selected and
    its call returns something other than a [GradeNode], grading goes on
    with the next test: it runs the function-calling strategy when the
    backend advertises parallel function calling, which is always so when
    the backend is the critic, and the plain-text strategy otherwise.  The
    function-calling strategy itself calls the backend at most once, never
    under another strategy, and falls back on the text of the reply. *)
Theorem grade_structured_mismatch agent llm query generated critiqued st v st1 :
  structured_selected agent llm = true ->
  completed_call agent llm GradeNodeSchema EvaluateGradeTool
                 (grade_prompt (py_str query) (py_str generated) (py_str critiqued)) v st st1 ->
  is_grade_node v = false ->
  grade agent llm query generated critiqued st =
    (if function_calling_selected llm
     then grade_function_calling agent llm
            (grade_prompt (py_str query) (py_str generated) (py_str critiqued))
     else grade_plain_text agent llm
            (grade_prompt (py_str query) (py_str generated) (py_str critiqued))) st1 /\
  (llm = critique_llm agent -> function_calling_selected llm = true) /\
  (forall p s r s',
      grade_function_calling agent llm p s = (r, s') ->
      exists ev, events s' = events s ++ ev /\
                 (strategies ev = [] \/ strategies ev = [FunctionCalling])) /\
  (forall p s text s',
      generate agent llm (Fresh (PyStr p)) NoFormat EvaluateGradeTool s = (Ok (PyStr text), s') ->
      grade_function_calling agent llm p s = (Ok (PyBool (contains "true" (lower text))), s')).
Proof.
  intros Hsel (c & flat & w & Hc & Hfl & Hb & ->) Hv.
  split; [|split; [|split]].
  - unfold grade. rewrite Hsel. unfold bind at 1, grade_structured.
    rewrite (bind_ok _ _ _ _ _ _ _
               (generate_string_run agent llm (Fresh (PyStr _)) GradeNodeSchema
                  EvaluateGradeTool st _ c flat v w eq_refl Hc Hfl Hb)).
    assert (K : is_grade_node (kept v) = false)
      by (unfold kept; destruct (py_truthy v); [exact Hv|reflexivity]).
    destruct (kept v); try discriminate; reflexivity.
  - intros ->. unfold structured_selected in Hsel.
    apply andb_true_iff in Hsel as [_ H]. exact H.
  - intros p s r s' H. unfold grade_function_calling in H.
    apply bind_inv in H as [(e & H & _)|(x & s1 & Hg & H)].
    + destruct (generate_string_trace agent llm (Fresh (PyStr p)) NoFormat EvaluateGradeTool s p _ _ eq_refl H) as [T|(fl & reply & T)];
        rename T into H'; clear H; rename H' into H.
      * exists []. split; [rewrite H; symmetry; apply app_nil_r | now left].
      * eexists; split; [exact H|]. right; reflexivity.
    + inversion H; subst.
      destruct (generate_string_trace agent llm (Fresh (PyStr p)) NoFormat EvaluateGradeTool s p _ _ eq_refl Hg) as [T|(fl & reply & T)];
        clear Hg; rename T into Hg.
      * exists []. split; [rewrite Hg; symmetry; apply app_nil_r | now left].
      * eexists; split; [exact Hg|]. right; reflexivity.
  - intros p s text s' H. unfold grade_function_calling.
    rewrite (bind_ok _ _ _ _ _ _ _ H). reflexivity.
Qed.

End GradeHistory.

(** C3 as worded fails: both flags are advertised, the structured-schema
    call returns text, and grading calls the backend again under the
    function-calling strategy. *)
Lemma grade_falls_through_to_function_calling :
  structured_selected demo_schema (critique_llm demo_schema) = true /\
  strategies (events (snd (grade demo_schema (critique_llm demo_schema)
                                 demo_query (PyStr " 4") (PyStr "4")
                                 (start demo_query text_for_schema_script))))
  = [StructuredSchema; FunctionCalling] /\
  fst (grade demo_schema (critique_llm demo_schema) demo_query (PyStr " 4") (PyStr "4")
             (start demo_query text_for_schema_script))
  = Ok (PyBool true).
Proof. repeat split; reflexivity. Qed.

Lemma grade_structured_mismatch_witness :
  grade demo_schema (critique_llm demo_schema) demo_query (PyStr " 4") (PyStr "4")
        (start demo_query text_for_schema_script)
  = grade_function_calling demo_schema (critique_llm demo_schema)
      (grade_prompt "What is 2+2?" " 4" "4")
      (snd (generate demo_schema (critique_llm demo_schema)
                     (Fresh (PyStr (grade_prompt "What is 2+2?" " 4" "4")))
                     GradeNodeSchema EvaluateGradeTool
                     (start demo_query text_for_schema_script))).
Proof.
  refine (proj1 (@grade_structured_mismatch scripted demo_schema (critique_llm demo_schema)
                   demo_query (PyStr " 4") (PyStr "4")
                   (start demo_query text_for_schema_script) (PyStr "True") _ _ _ _)).
  - reflexivity.
  - eexists _, _, _. repeat split; reflexivity.
  - reflexivity.
Defined.

(** ** The history one iteration adds *)

Section IterationHistory.

Context {env : Environment}.

Lemma kept_string v g : kept v = PyStr g -> v = PyStr g /\ py_truthy v = true.
Proof.
  unfold kept. destruct (py_truthy v) eqn:T; [|discriminate]. now intros ->.
Qed.

Lemma graded_below_messages agent llm p v r st st' c :
  system_prompt_format agent (PyStr p) = Ok c ->
  graded_below agent llm p v r st st' ->
  messages st' = messages st ++ exchange c v.
Proof.
  intros Hc [(_ & H & _)|(_ & H & _)];
    apply completed_call_frame in H as (c' & fl & Hc' & Hm & _);
    rewrite Hc in Hc'; inversion Hc'; subst; exact Hm.
Qed.

Lemma graded_below_format agent llm p v r st st' :
  graded_below agent llm p v r st st' ->
  exists c, system_prompt_format agent (PyStr p) = Ok c.
Proof.
  intros [(_ & H & _)|(_ & H & _)];
    apply completed_call_frame in H as (c & fl & Hc & _); eauto.
Qed.

(** What a completed call of [grade] adds: the formatted grading prompt
    as a user message and the kept reply as an assistant message, once per
    backend call. *)
Lemma graded_messages agent llm p replies r st st' :
  graded agent llm p replies r st st' ->
  exists c, system_prompt_format agent (PyStr p) = Ok c /\
            messages st' = messages st ++ flat_map (exchange c) replies /\
            (List.length replies = 1 \/
             (List.length replies = 2 /\ structured_selected agent llm = true /\
              exists v rest, replies = v :: rest /\ is_grade_node v = false)).
Proof.
  intros [(b & Hs & -> & H & _)|[(v1 & v2 & s1 & Hs & -> & H1 & Hv & H2)|(v & Hs & -> & H)]].
  - apply completed_call_frame in H as (c & fl & Hc & Hm & _).
    exists c. split; [assumption|]. split; [|now left].
    rewrite Hm. cbn [flat_map]. now rewrite app_nil_r.
  - apply completed_call_frame in H1 as (c & fl & Hc & Hm & _).
    exists c. split; [assumption|]. split.
    + rewrite (graded_below_messages _ _ _ _ _ _ _ _ Hc H2), Hm.
      cbn [flat_map]. now rewrite app_nil_r, app_assoc.
    + right. repeat split; eauto.
  - destruct (graded_below_format _ _ _ _ _ _ _ H) as (c & Hc).
    exists c. split; [assumption|]. split; [|now left].
    rewrite (graded_below_messages _ _ _ _ _ _ _ _ Hc H).
    cbn [flat_map]. now rewrite app_nil_r.
Qed.

Lemma exchange_length c v :
  List.length (exchange c v) = if py_truthy v then 2 else 1.
Proof. unfold exchange. now destruct (py_truthy v). Qed.

Lemma flat_map_exchange_length c replies :
  forallb py_truthy replies = true ->
  List.length (flat_map (exchange c) replies) = 2 * List.length replies.
Proof.
  induction replies as [|v replies IH]; [reflexivity|].
  cbn [forallb flat_map List.length]. intros H. apply andb_true_iff in H as [Hv H].
  rewrite length_app, exchange_length, Hv, (IH H). lia.
Qed.

(** C10 (as amended): grading changes the conversation state.  For a
    string query, an iteration that completes adds to the history the
    exchange of the generate step, the exchange of the critique step and
    one exchange for each backend call of the grade step, an exchange
    being the formatted prompt as a user message followed, when the reply
    has content, by the reply as an assistant message.  The grade step
    calls the backend once, or twice when the structured-schema call
    returned something other than a [GradeNode].  So when every reply has
    content the iteration adds six messages in the first case and eight in
    the second. *)
Theorem iteration_history_growth agent i q st b st' :
  query_obj st = PyStr q ->
  try_body agent i st = (Ok b, st') ->
  exists g critiqued replies cq cc cg,
    system_prompt_format agent (PyStr q) = Ok cq /\
    system_prompt_format agent
      (PyStr (critique_prompt q (extract_final_answer g))) = Ok cc /\
    system_prompt_format agent
      (PyStr (grade_prompt q (extract_final_answer g) (py_str (kept critiqued)))) = Ok cg /\
    messages st' =
      messages st ++ exchange cq (PyStr g) ++ exchange cc critiqued
                  ++ flat_map (exchange cg) replies /\
    py_truthy (PyStr g) = true /\
    (List.length replies = 1 \/
     (List.length replies = 2 /\
      structured_selected agent (critique_llm agent) = true /\
      exists v rest, replies = v :: rest /\ is_grade_node v = false)) /\
    (py_truthy critiqued = true ->
     forallb py_truthy replies = true ->
     List.length (messages st') = List.length (messages st) + 4 + 2 * List.length replies).
Proof.
  intros Hq H.
  apply try_body_ok_iff in H as (g & c & r & sg & Hcy & _ & ->).
  destruct Hcy as [g st1 c st2 r st3 Hgen Hc Hg].
  apply (generate_string_inv _ _ _ _ _ _ q) in Hgen as (v & Hcall & Hk); [|exact Hq].
  symmetry in Hk. apply kept_string in Hk as [-> Hvt].
  apply completed_call_frame in Hcall as (cq & fl & Hcq & Hm1 & _ & Hq1 & _).
  cbn [messages query_obj begun with_events] in Hm1, Hq1.
  rewrite Hq1, Hq in Hc.
  unfold critique in Hc. cbn [py_str] in Hc.
  apply (generate_string_inv agent (critique_llm agent) (Fresh (PyStr _)) NoFormat NoTools
           _ _ _ _ eq_refl) in Hc as (vc & Hcall & ->).
  apply completed_call_frame in Hcall as (cc & fl2 & Hcc & Hm2 & _ & Hq2 & _).
  cbn [messages query_obj recorded with_generated_response with_res] in Hm2, Hq2.
  rewrite Hq2, Hq1, Hq in Hg.
  apply grade_inv in Hg as (replies & Hg). cbn [py_str] in Hg.
  apply graded_messages in Hg as (cg & Hcg & Hm3 & Hn).
  cbn [messages with_res] in Hm3.
  exists g, vc, replies, cq, cc, cg.
  assert (Hm : messages (closed r st3) =
               messages st ++ exchange cq (PyStr g) ++ exchange cc vc
                           ++ flat_map (exchange cg) replies).
  { assert (E : messages (closed r st3) = messages st3)
      by (unfold closed; destruct (py_truthy r); reflexivity).
    rewrite E, Hm3, Hm2, Hm1. now rewrite <- !app_assoc. }
  repeat split; auto.
  intros Hvc Hall. rewrite Hm, !length_app, !exchange_length, Hvt, Hvc.
  rewrite (flat_map_exchange_length _ _ Hall). lia.
Qed.

End IterationHistory.

(** C10 as worded fails: a string query, every reply with content, the
    structured-schema call answered with text; grading calls the backend
    twice and the iteration adds eight messages. *)
Lemma iteration_adds_eight_messages :
  fst (try_body demo_schema 0 (start demo_query schema_cycle_script)) = Ok true /\
  forallb replied
    (backend_calls (events (snd (try_body demo_schema 0 (start demo_query schema_cycle_script)))))
  = true /\
  strategies (events (snd (try_body demo_schema 0 (start demo_query schema_cycle_script))))
  = [PlainText; PlainText; StructuredSchema; FunctionCalling] /\
  List.length (messages (snd (try_body demo_schema 0 (start demo_query schema_cycle_script))))
  = 8.
Proof. repeat split; reflexivity. Qed.

Lemma iteration_history_growth_witness :
  exists g critiqued replies cq cc cg,
    messages (snd (try_body demo_plain 0 (start demo_query accepting_script)))
    = [] ++ exchange cq (PyStr g) ++ exchange cc critiqued ++ flat_map (exchange cg) replies /\
    (py_truthy critiqued = true ->
     forallb py_truthy replies = true ->
     List.length (messages (snd (try_body demo_plain 0 (start demo_query accepting_script))))
     = 0 + 4 + 2 * List.length replies).
Proof.
  assert (Hrun : try_body demo_plain 0 (start demo_query accepting_script)
                 = (Ok true, snd (try_body demo_plain 0 (start demo_query accepting_script))))
    by (vm_compute; reflexivity).
  destruct (@iteration_history_growth scripted demo_plain 0 "What is 2+2?"
              (start demo_query accepting_script) true _ eq_refl Hrun)
    as (g & critiqued & replies & cq & cc & cg & _ & _ & _ & Hm & _ & _ & Hlen).
  exists g, critiqued, replies, cq, cc, cg. split; [exact Hm | exact Hlen].
Defined.

(** ** Concrete runs *)

Lemma invoke_stops_at_acceptance_witness :
  fst (invoke demo_plain (start demo_query accepting_script))
  = Ok (PyStr (extract_final_answer "Final Answer: 4")) /\
  cycles (events (snd (invoke demo_plain (start demo_query accepting_script)))) = 0 + 1.
Proof.
  pose (s1 := snd (generate demo_plain (generator_llm demo_plain) TheQuery NoFormat NoTools
                            (begun 0 (entered (start demo_query accepting_script))))).
  pose (s2 := snd (critique demo_plain (critique_llm demo_plain)
                            (PyStr (extract_final_answer "Final Answer: 4")) (query_obj s1)
                            (recorded 0 "Final Answer: 4" s1))).
  pose (s3 := snd (grade demo_plain (critique_llm demo_plain) (query_obj s2)
                         (PyStr (extract_final_answer "Final Answer: 4")) (PyStr "4")
                         (with_res s2 (res s2 ++ critiqued_block (PyStr "4"))))).
  assert (H1 : generate demo_plain (generator_llm demo_plain) TheQuery NoFormat NoTools
                        (begun 0 (entered (start demo_query accepting_script)))
               = (Ok (PyStr "Final Answer: 4"), s1)) by (vm_compute; reflexivity).
  assert (H2 : critique demo_plain (critique_llm demo_plain)
                        (PyStr (extract_final_answer "Final Answer: 4")) (query_obj s1)
                        (recorded 0 "Final Answer: 4" s1)
               = (Ok (PyStr "4"), s2)) by (vm_compute; reflexivity).
  assert (H3 : grade demo_plain (critique_llm demo_plain) (query_obj s2)
                     (PyStr (extract_final_answer "Final Answer: 4")) (PyStr "4")
                     (with_res s2 (res s2 ++ critiqued_block (PyStr "4")))
               = (Ok (PyBool true), s3)) by (vm_compute; reflexivity).
  assert (Hk : 1 <= 1 <= Z.to_nat (max_iterations demo_plain)) by (vm_compute; lia).
  destruct (@invoke_stops_at_acceptance scripted demo_plain 1
              (start demo_query accepting_script)
              (entered (start demo_query accepting_script))
              "Final Answer: 4" (PyStr "4") (PyBool true) s3 Hk
              (rejected_nil demo_plain 0 _)
              (cycle_graded_intro demo_plain 0 _ _ _ _ _ _ _ H1 H2 H3) eq_refl)
    as (Hrun & Hcycles & _).
  split.
  - exact (f_equal fst Hrun).
  - exact (eq_trans (f_equal (fun x => cycles (events (snd x))) Hrun) Hcycles).
Defined.

Lemma invoke_exhausts_witness :
  exists g, fst (invoke (demo_agent 1 (plain_llm "openai/gpt-4o"))
                        (start demo_query rejecting_script))
            = Ok (PyStr (extract_final_answer g)).
Proof.
  pose (sn := snd (try_body (demo_agent 1 (plain_llm "openai/gpt-4o")) 0
                            (entered (start demo_query rejecting_script)))).
  assert (Hb : try_body (demo_agent 1 (plain_llm "openai/gpt-4o")) 0
                        (entered (start demo_query rejecting_script))
               = (Ok false, sn)) by (vm_compute; reflexivity).
  assert (Hn : Z.to_nat (max_iterations (demo_agent 1 (plain_llm "openai/gpt-4o"))) = 1)
    by (vm_compute; reflexivity).
  destruct (@invoke_exhausts scripted (demo_agent 1 (plain_llm "openai/gpt-4o")) 1
              (start demo_query rejecting_script) sn (le_n 1) Hn
              (rejected_cons _ 0 0 _ _ _ Hb (rejected_nil _ 1 sn)))
    as (s & g & c & r & sg & _ & _ & _ & _ & Hrun & _).
  exists g. exact (f_equal fst Hrun).
Defined.

(** C2 as worded fails: with one iteration, the generated response
    [Final Answer: 4] and a rejecting grade, the run returns the extracted
    text and not the generated response. *)
Lemma invoke_returns_extracted_text :
  fst (invoke (demo_agent 1 (plain_llm "openai/gpt-4o")) (start demo_query rejecting_script))
    = Ok (PyStr " 4") /\
  backend_calls (events (snd (invoke (demo_agent 1 (plain_llm "openai/gpt-4o"))
                                     (start demo_query rejecting_script))))
    = [EInvoke (plain_llm "together_ai/mistralai/Mixtral-8x7B-Instruct-v0.1")
               [("user", PyStr "What is 2+2?")] NoFormat NoTools
               (BContent (PyStr "Final Answer: 4"));
       EInvoke (plain_llm "openai/gpt-4o")
               [("user", PyStr "What is 2+2?"); ("assistant", PyStr "Final Answer: 4");
                ("user", PyStr (critique_prompt "What is 2+2?" " 4"))] NoFormat NoTools
               (BContent (PyStr "4"));
       EInvoke (plain_llm "openai/gpt-4o")
               [("user", PyStr "What is 2+2?"); ("assistant", PyStr "Final Answer: 4");
                ("user", PyStr (critique_prompt "What is 2+2?" " 4"));
                ("assistant", PyStr "4");
                ("user", PyStr (grade_prompt "What is 2+2?" " 4" "4"))] NoFormat NoTools
               (BContent (PyStr "False"))] /\
  String.eqb " 4" "Final Answer: 4" = false.
Proof. split; [|split]; vm_compute; reflexivity. Qed.

Lemma invoke_fails_fast_witness :
  fst (invoke demo_plain (start demo_query failing_script))
    = Err (mkExn "TimeoutError" "backend timed out") /\
  res (snd (invoke demo_plain (start demo_query failing_script)))
    = ("===== Epoch 1 =====" ++ nl ++ nl
       ++ "**Generated Response**:" ++ nl ++ nl ++ "Final Answer: 4" ++ nl ++ nl
       ++ nl ++ nl ++ "**Critiqued Response**:" ++ nl ++ nl ++ "4" ++ nl ++ nl
       ++ nl ++ nl ++ "**Error occurred backend timed out in iteration 1**" ++ nl ++ nl)%string /\
  writes (events (snd (invoke demo_plain (start demo_query failing_script))))
    = writes (events (start demo_query failing_script)).
Proof.
  pose (s1 := snd (generate demo_plain (generator_llm demo_plain) TheQuery NoFormat NoTools
                            (begun 0 (entered (start demo_query failing_script))))).
  pose (s2 := snd (critique demo_plain (critique_llm demo_plain)
                            (PyStr (extract_final_answer "Final Answer: 4")) (query_obj s1)
                            (recorded 0 "Final Answer: 4" s1))).
  pose (s3 := snd (grade demo_plain (critique_llm demo_plain) (query_obj s2)
                         (PyStr (extract_final_answer "Final Answer: 4")) (PyStr "4")
                         (with_res s2 (res s2 ++ critiqued_block (PyStr "4"))))).
  assert (H1 : generate demo_plain (generator_llm demo_plain) TheQuery NoFormat NoTools
                        (begun 0 (entered (start demo_query failing_script)))
               = (Ok (PyStr "Final Answer: 4"), s1)) by (vm_compute; reflexivity).
  assert (H2 : critique demo_plain (critique_llm demo_plain)
                        (PyStr (extract_final_answer "Final Answer: 4")) (query_obj s1)
                        (recorded 0 "Final Answer: 4" s1)
               = (Ok (PyStr "4"), s2)) by (vm_compute; reflexivity).
  assert (H3 : grade demo_plain (critique_llm demo_plain) (query_obj s2)
                     (PyStr (extract_final_answer "Final Answer: 4")) (PyStr "4")
                     (with_res s2 (res s2 ++ critiqued_block (PyStr "4")))
               = (Err (mkExn "TimeoutError" "backend timed out"), s3))
    by (vm_compute; reflexivity).
  assert (Hj : 0 < Z.to_nat (max_iterations demo_plain)) by (vm_compute; lia).
  assert (He : is_exception (mkExn "TimeoutError" "backend timed out") = true)
    by (vm_compute; reflexivity).
  destruct (@invoke_fails_fast scripted demo_plain 0
              (start demo_query failing_script)
              (entered (start demo_query failing_script))
              (mkExn "TimeoutError" "backend timed out") s3 Hj He
              (rejected_nil demo_plain 0 _)
              (grade_raises demo_plain 0 _ _ _ _ _ _ _ H1 H2 H3))
    as (failed & Hrun & Hfailed & Hwrites & _).
  split; [|split].
  - exact (f_equal fst Hrun).
  - refine (eq_trans (f_equal (fun x => res (snd x)) Hrun) _).
    refine (eq_trans (f_equal res Hfailed) _). vm_compute; reflexivity.
  - exact (eq_trans (f_equal (fun x => writes (events (snd x))) Hrun) Hwrites).
Defined.

Lemma conversation_state_append_only_witness :
  aliased_replacement TheMessages raw_history = false /\
  (exists added,
     messages (snd (update_chat_history demo_plain TheMessages raw_history))
     = messages raw_history ++ added /\
     List.length (messages raw_history)
     <= List.length (messages (snd (update_chat_history demo_plain TheMessages raw_history))) /\
     (added = [] \/
      (exists c, added = [UserMessage (PyStr c)]) \/
      (exists items, query_value TheMessages raw_history = PyList items /\
         (added = items \/ exists c, added = set_last items (UserMessage (PyStr c)))))) /\
  (exists added,
     messages (snd (generate demo_plain (plain_llm "openai/gpt-4o") TheQuery NoFormat NoTools
                             (start user_query accepting_script)))
     = messages (start user_query accepting_script) ++ added /\
     List.length (messages (start user_query accepting_script))
     <= List.length (messages (snd (generate demo_plain (plain_llm "openai/gpt-4o") TheQuery
                                             NoFormat NoTools
                                             (start user_query accepting_script))))).
Proof.
  assert (Ha : aliased_replacement TheMessages raw_history = false)
    by (vm_compute; reflexivity).
  assert (Hb : aliased_replacement TheQuery (start user_query accepting_script) = false)
    by (vm_compute; reflexivity).
  destruct (@conversation_state_append_only scripted demo_plain (plain_llm "openai/gpt-4o")
              TheMessages NoFormat NoTools PyNone PyNone PyNone raw_history Ha)
    as (Hu & _).
  destruct (@conversation_state_append_only scripted demo_plain (plain_llm "openai/gpt-4o")
              TheQuery NoFormat NoTools PyNone PyNone PyNone
              (start user_query accepting_script) Hb)
    as (_ & Hg & _).
  split; [exact Ha|]. split.
  - exact (Hu _ _ (surjective_pairing _)).
  - exact (Hg _ _ (surjective_pairing _)).
Defined.

(** C8 as worded fails: the query is [agent.messages] itself and ends with
    a raw mapping of role [user].  The update, and [generate] through it,
    puts the formatted message in the place of the second entry of the
    history, which is then the old one neither in content nor as a
    prefix. *)
Lemma update_replaces_entry_of_aliased_history :
  nth_error (messages aliased_history) 1 = Some user_mapping /\
  update_chat_history demo_plain TheMessages aliased_history
  = (Ok tt, with_messages aliased_history
              [AIMessage (PyStr "Hello"); UserMessage (PyStr "What is 2+2?");
               AIMessage (PyStr "Hello"); UserMessage (PyStr "What is 2+2?")]) /\
  fst (generate demo_plain (generator_llm demo_plain) TheMessages NoFormat NoTools
                aliased_history) = Ok (PyStr "Final Answer: 4") /\
  messages (snd (generate demo_plain (generator_llm demo_plain) TheMessages NoFormat NoTools
                          aliased_history))
  = [AIMessage (PyStr "Hello"); UserMessage (PyStr "What is 2+2?");
     AIMessage (PyStr "Hello"); UserMessage (PyStr "What is 2+2?");
     AIMessage (PyStr "Final Answer: 4")] /\
  is_dict user_mapping = true /\
  existsb is_dict (messages (snd (generate demo_plain (generator_llm demo_plain) TheMessages
                                           NoFormat NoTools aliased_history))) = false.
Proof. split; [|split; [|split; [|split; [|split]]]]; vm_compute; reflexivity. Qed.

(** C7 as worded fails: the last element is a mapping with role
    [assistant]; the update extends the conversation state with the list. *)
Lemma update_extends_with_assistant_mapping :
  is_user_message assistant_mapping = false /\
  is_user_role_mapping assistant_mapping = false /\
  update_chat_history demo_plain TheQuery (start assistant_query [])
  = (Ok tt, with_messages (start assistant_query []) [assistant_mapping]) /\
  List.length (messages (snd (update_chat_history demo_plain TheQuery
                                                  (start assistant_query [])))) = 1.
Proof. split; [|split; [|split]]; vm_compute; reflexivity. Qed.

Lemma update_chat_history_other_shapes_witness :
  update_chat_history demo_plain TheQuery (start assistant_query [])
  = (Ok tt, with_messages (start assistant_query [])
                          (messages (start assistant_query []) ++ [assistant_mapping])).
Proof.
  exact (proj2 (@update_chat_history_other_shapes scripted demo_plain TheQuery
                  (start assistant_query []) [assistant_mapping] assistant_mapping
                  eq_refl eq_refl eq_refl eq_refl)
               [("role", PyStr "assistant"); ("content", PyStr "hi")]
               (PyStr "assistant") eq_refl eq_refl).
Defined.

(** A few evaluations of the string operations. *)
Example rfind_last_occurrence :
  rfind "a Final Answer: b Final Answer: c" "Final Answer" = 18%Z /\
  rfind "no marker" "Final Answer" = (-1)%Z.
Proof. split; vm_compute; reflexivity. Qed.

Example save_path_demo :
  save_path demo_plain
  = "prompt_results/cot_zero_shot_G_Mixtral-8x7B-Instruct-v0.1_C_gpt-4o_3f2a_.txt".
Proof. vm_compute; reflexivity. Qed.

(* ================================================================= *)
(** * Further properties of the code *)

(** ** [update_chat_history] and [generate] *)

Section UpdateGenerate.

Context {env : Environment}.

Lemma quiet_refl st : quiet st st.
Proof. now split. Qed.

Lemma quiet_trans st1 st2 st3 : quiet st1 st2 -> quiet st2 st3 -> quiet st1 st3.
Proof. intros [A1 B1] [A2 B2]. split; congruence. Qed.

Lemma quiet_extend_messages items : respects quiet (extend_messages items).
Proof. intros st r st' H; inversion H; subst. now split. Qed.

Lemma quiet_append_message m : respects quiet (append_message m).
Proof. intros st r st' H; inversion H; subst. now split. Qed.

Lemma quiet_read_query q : respects quiet (read_query q).
Proof. intros st r st' H; inversion H; subst. now split. Qed.

Lemma quiet_write_query q v : respects quiet (write_query q v).
Proof. intros st r st' H; inversion H; subst. destruct q; [| |destruct v]; now split. Qed.

(** [update_chat_history] logs nothing and does not reach the backend. *)
Lemma quiet_update_chat_history agent q : respects quiet (update_chat_history agent q).
Proof.
  pose proof quiet_refl as R. pose proof quiet_trans as T.
  pose proof quiet_extend_messages. pose proof quiet_append_message.
  pose proof quiet_read_query. pose proof quiet_write_query.
  unfold update_chat_history.
  repeat first
    [ solve [auto using respects_ret, respects_raise, respects_lift, respects_dict_getitem]
    | apply respects_bind; [exact T | | intro]
    | match goal with
      | |- respects _ (match ?x with _ => _ end) => destruct x
      | |- respects _ (if ?b then _ else _) => destruct b
      end ].
Qed.

(** X1: A call of [update_chat_history] that raises has changed nothing:
    neither the conversation state nor the caller's query. *)
Theorem update_chat_history_raise_atomic agent q st e st' :
  update_chat_history agent q st = (Err e, st') -> st' = st.
Proof.
  intros H.
  destruct (query_value q st) as [| |p|items| | | |] eqn:Hq.
  3: { rewrite (update_chat_history_string agent q st p Hq) in H.
       destruct (system_prompt_format agent (PyStr p)); inversion H; reflexivity. }
  3: { rewrite (update_chat_history_list agent q st items Hq) in H.
       unfold update_on_list in H.
       destruct (last_item items) as [[| | | |d| | |]|]; try (inversion H; reflexivity).
       destruct (dict_get d "role") as [role|]; [|inversion H; reflexivity].
       destruct (py_eq_str role "user"); [|discriminate].
       destruct (dict_get d "content") as [content|]; [|inversion H; reflexivity].
       destruct (system_prompt_format agent content); inversion H; reflexivity. }
  all: rewrite update_chat_history_other in H
    by (intros ? E; rewrite Hq in E; discriminate); discriminate.
Qed.

(** X2: The errors of [update_chat_history] on a list query: an empty list
    raises [IndexError]; a last element that is a mapping without the key
    [role] raises [KeyError]; so does a mapping with role [user] and no
    key [content]. *)
Theorem update_chat_history_list_errors agent q st items :
  query_value q st = PyList items ->
  (items = [] -> update_chat_history agent q st = (Err index_error, st)) /\
  (forall d, last_item items = Some (PyDict d) -> dict_get d "role" = None ->
             update_chat_history agent q st = (Err (key_error "role"), st)) /\
  (forall d role, last_item items = Some (PyDict d) -> dict_get d "role" = Some role ->
                  py_eq_str role "user" = true -> dict_get d "content" = None ->
                  update_chat_history agent q st = (Err (key_error "content"), st)).
Proof.
  intros Hq. rewrite (update_chat_history_list agent q st items Hq).
  unfold update_on_list. split; [|split].
  - now intros ->.
  - intros d -> Hr. now rewrite Hr.
  - intros d role -> Hr Hu Hc. now rewrite Hr, Hu, Hc.
Qed.

(** X3: A list query that ends with a raw mapping with role [user]: the call
    replaces that element, in the caller's list, by a user message with
    the formatted content, and extends the history with the list so
    changed.  A second call on the same query finds the message in place:
    it formats nothing and extends the history with the same list again. *)
Theorem update_chat_history_user_mapping agent st items d content c :
  query_obj st = PyList items ->
  last_item items = Some (PyDict d) ->
  dict_get d "role" = Some (PyStr "user") ->
  dict_get d "content" = Some content ->
  system_prompt_format agent content = Ok c ->
  let items' := removelast items ++ [UserMessage (PyStr c)] in
  let st1 := with_messages (with_query_obj st (PyList items')) (messages st ++ items') in
  update_chat_history agent TheQuery st = (Ok tt, st1) /\
  update_chat_history agent TheQuery st1 =
    (Ok tt, with_messages st1 (messages st ++ items' ++ items')).
Proof.
  intros Hq Hl Hr Hc Hf items' st1. split.
  - rewrite (update_chat_history_list agent TheQuery st items Hq).
    unfold update_on_list. rewrite Hl, Hr. cbn [py_eq_str].
    rewrite String.eqb_refl, Hc, Hf. reflexivity.
  - assert (Hq1 : query_value TheQuery st1 = PyList items') by reflexivity.
    rewrite (update_chat_history_list agent TheQuery st1 items' Hq1).
    unfold update_on_list.
    assert (Hl' : last_item items' = Some (UserMessage (PyStr c))).
    { unfold items'. generalize (removelast items). intros l.
      induction l as [|x l IH]; [reflexivity|].
      cbn [app last_item]. destruct (l ++ [UserMessage (PyStr c)]) eqn:E; [|exact IH].
      destruct l; discriminate. }
    rewrite Hl'. unfold UserMessage. cbn [messages st1 with_messages].
    now rewrite <- app_assoc.
Qed.

(** X4: What [generate] returns: [None], or a value that is true in a
    condition.  Either way the backend was called exactly once, and the
    value is the content of its reply when that content is kept. *)
Theorem generate_returns_none_or_content agent llm q fmt tools st r st' :
  generate agent llm q fmt tools st = (Ok r, st') ->
  exists flat v,
    events st' = events st ++ [EInvoke llm flat fmt tools (BContent v)] /\
    r = kept v /\
    (r = PyNone \/ py_truthy r = true).
Proof.
  intros H. unfold generate in H.
  apply bind_ok_inv in H as ([] & s1 & Hu & H).
  pose proof (proj1 (quiet_update_chat_history agent q _ _ _ Hu)) as E1.
  apply bind_ok_inv in H as (flat & s2 & Hf & H).
  inversion Hf; subst s2; clear Hf.
  apply bind_ok_inv in H as (v & s3 & Hi & H).
  unfold llm_invoke in Hi.
  destruct (backend_invoke (world s1) llm flat fmt tools) as [reply w].
  destruct reply as [v0|e0]; [|discriminate]. inversion Hi; subst v0 s3; clear Hi.
  exists flat, v. unfold kept.
  destruct (py_truthy v) eqn:T.
  - unfold bind, append_message, ret in H. inversion H; subst.
    cbn [events with_messages with_events with_world]. rewrite E1. auto.
  - inversion H; subst. cbn [events with_events with_world]. rewrite E1. auto.
Qed.

Lemma generate_backend_raise agent llm q fmt tools st p c flat e w :
  query_value q st = PyStr p ->
  system_prompt_format agent (PyStr p) = Ok c ->
  flatten (messages st ++ [UserMessage (PyStr c)]) = Ok flat ->
  backend_invoke (world st) llm flat fmt tools = (BRaise e, w) ->
  generate agent llm q fmt tools st =
  (Err e, with_events (with_world (with_messages st (messages st ++ [UserMessage (PyStr c)])) w)
                      (events st ++ [EInvoke llm flat fmt tools (BRaise e)])).
Proof.
  intros Hq Hc Hf Hb. unfold generate.
  rewrite (bind_ok _ _ _ _ _ _ _ (update_chat_history_string_ok agent q st p c Hq Hc)).
  unfold bind, flatten_messages, llm_invoke.
  cbn [messages world events with_messages]. rewrite Hf. cbn [world with_messages].
  now rewrite Hb.
Qed.

(** X5: A backend that raises leaves the prompt in the history: the call of
    [generate] raises the same exception, and the conversation state has
    gained the formatted prompt as a user message and nothing else. *)
Theorem generate_backend_failure_keeps_prompt agent llm q fmt tools st p c flat e w :
  query_value q st = PyStr p ->
  system_prompt_format agent (PyStr p) = Ok c ->
  flatten (messages st ++ [UserMessage (PyStr c)]) = Ok flat ->
  backend_invoke (world st) llm flat fmt tools = (BRaise e, w) ->
  exists st',
    generate agent llm q fmt tools st = (Err e, st') /\
    messages st' = messages st ++ [UserMessage (PyStr c)] /\
    events st' = events st ++ [EInvoke llm flat fmt tools (BRaise e)].
Proof.
  intros Hq Hc Hf Hb.
  rewrite (generate_backend_raise agent llm q fmt tools st p c flat e w Hq Hc Hf Hb).
  eexists. split; [reflexivity|]. split; reflexivity.
Qed.



End UpdateGenerate.

(** ** The marker extraction and the grading rule *)

Section TextFacts.

Implicit Types s t sub : string.

Lemma drop_drop n m s : drop n (drop m s) = drop (m + n) s.
Proof.
  revert s; induction m as [|m IH]; intros s; [reflexivity|].
  destruct s as [|c s]; [now destruct n|]. exact (IH s).
Qed.

Lemma contains_drop sub s n : contains sub s = false -> contains sub (drop n s) = false.
Proof.
  revert s; induction n as [|n IH]; intros s H; [assumption|].
  destruct s as [|c s]; [assumption|].
  cbn [drop]. apply IH. cbn [contains] in H. now apply orb_false_iff in H as [_ H].
Qed.

Lemma rfind_nat_no_later a sub s i :
  rfind_nat (String a sub) s = Some i -> contains (String a sub) (drop (S i) s) = false.
Proof.
  revert i; induction s as [|c s IH]; intros i H; cbn [rfind_nat] in H.
  - discriminate.
  - destruct (rfind_nat (String a sub) s) as [j|] eqn:R.
    + inversion H; subst. cbn [drop]. now apply IH.
    + destruct (prefix (String a sub) (String c s)); [|discriminate].
      inversion H; subst. cbn [drop]. now apply rfind_nat_none.
Qed.

Lemma extract_marker_free s :
  contains final_answer_marker (extract_final_answer s) = false.
Proof.
  unfold extract_final_answer, rfind.
  destruct (rfind_nat final_answer_marker s) as [i|] eqn:R.
  - assert (E : (Z.of_nat i >=? 0)%Z = true)
      by (rewrite Z.geb_leb; apply Z.leb_le; lia).
    rewrite E, slice_from_nonneg by lia.
    rewrite <- Nat2Z.inj_add, Nat2Z.id.
    replace (i + String.length "Final Answer:") with (S i + 12)
      by (cbn [String.length]; lia).
    rewrite <- drop_drop. apply contains_drop.
    exact (rfind_nat_no_later _ _ _ _ R).
  - cbn [Z.geb Z.compare]. now apply rfind_nat_none.
Qed.

(** X7: The text the extraction yields never contains the marker, so
    extracting twice is extracting once: what is fed to [critique] and
    [grade], and returned by [invoke], is free of [Final Answer]. *)
Theorem extract_final_answer_idempotent s :
  contains final_answer_marker (extract_final_answer s) = false /\
  extract_final_answer (extract_final_answer s) = extract_final_answer s.
Proof.
  split.
  - apply extract_marker_free.
  - apply extract_no_marker, extract_marker_free.
Qed.

Lemma is_space_lower_char c : is_space (lower_char c) = is_space c.
Proof. destruct c as [[] [] [] [] [] [] [] []]; reflexivity. Qed.

Lemma lower_lstrip s : lower (lstrip s) = lstrip (lower s).
Proof.
  induction s as [|c s IH]; [reflexivity|].
  cbn [lstrip lower]. rewrite is_space_lower_char.
  now destruct (is_space c).
Qed.

Lemma lower_rstrip s : lower (rstrip s) = rstrip (lower s).
Proof.
  induction s as [|c s IH]; [reflexivity|].
  cbn [rstrip lower]. rewrite <- IH, is_space_lower_char.
  destruct (rstrip s); cbn [lower]; [now destruct (is_space c)|reflexivity].
Qed.

Lemma lower_strip s : lower (strip s) = strip (lower s).
Proof. unfold strip. now rewrite lower_rstrip, lower_lstrip. Qed.

Lemma prefix_cons a sub c s :
  prefix (String a sub) (String c s) = if ascii_dec a c then prefix sub s else false.
Proof. reflexivity. Qed.

Lemma prefix_head_mismatch a sub c s :
  a <> c -> prefix (String a sub) (String c s) = false.
Proof. intros H. cbn [prefix]. now destruct (ascii_dec a c). Qed.

Lemma contains_lstrip a sub s :
  is_space a = false ->
  contains (String a sub) (lstrip s) = contains (String a sub) s.
Proof.
  intros Ha. induction s as [|c s IH]; [reflexivity|].
  cbn [lstrip]. destruct (is_space c) eqn:C; [|reflexivity].
  rewrite IH. cbn [contains].
  rewrite prefix_head_mismatch by (intros ->; congruence). reflexivity.
Qed.

Lemma rstrip_empty_spaces s : rstrip s = EmptyString -> no_space s = true -> s = EmptyString.
Proof.
  destruct s as [|c s]; [reflexivity|]. cbn [rstrip no_space].
  intros H N. apply andb_true_iff in N as [N _].
  destruct (rstrip s); [|discriminate].
  destruct (is_space c); discriminate.
Qed.

(** On text that [rstrip] reduces to nothing no pattern starts, but the
    empty one. *)
Lemma prefix_of_blank sub s :
  rstrip s = EmptyString -> no_space sub = true ->
  prefix sub s = match sub with EmptyString => true | _ => false end.
Proof.
  intros Hs Hn. destruct sub as [|a sub]; [now destruct s|].
  destruct s as [|c s]; [reflexivity|].
  cbn [no_space] in Hn. apply andb_true_iff in Hn as [Ha _].
  apply prefix_head_mismatch. intros ->.
  cbn [rstrip] in Hs. destruct (rstrip s); [|discriminate].
  destruct (is_space c); [discriminate Ha|discriminate Hs].
Qed.

Lemma prefix_rstrip sub s : no_space sub = true -> prefix sub (rstrip s) = prefix sub s.
Proof.
  revert sub; induction s as [|c s IH]; intros sub Hn; [reflexivity|].
  destruct sub as [|a sub]; [now destruct (rstrip (String c s))|].
  pose proof Hn as Hn'. cbn [no_space] in Hn'. apply andb_true_iff in Hn' as [Ha Hsub].
  cbn [rstrip]. destruct (rstrip s) as [|c' r] eqn:R.
  - destruct (is_space c) eqn:C.
    + rewrite prefix_head_mismatch by (intros ->; rewrite C in Ha; discriminate).
      reflexivity.
    + rewrite !prefix_cons. destruct (ascii_dec a c); [|reflexivity].
      rewrite (prefix_of_blank sub s R Hsub). now destruct sub.
  - rewrite !prefix_cons. destruct (ascii_dec a c); [|reflexivity].
    now apply IH.
Qed.

Lemma contains_rstrip a sub s :
  no_space (String a sub) = true ->
  contains (String a sub) (rstrip s) = contains (String a sub) s.
Proof.
  intros Hn. induction s as [|c s IH]; [reflexivity|].
  cbn [contains]. rewrite <- (prefix_rstrip _ (String c s) Hn), <- IH.
  cbn [rstrip]. destruct (rstrip s) as [|c' r] eqn:R.
  - destruct (is_space c); cbn [contains prefix]; now rewrite ?orb_false_r.
  - reflexivity.
Qed.

Lemma contains_strip a sub s :
  no_space (String a sub) = true ->
  contains (String a sub) (strip s) = contains (String a sub) s.
Proof.
  intros Hn. unfold strip. rewrite (contains_rstrip _ _ _ Hn).
  apply contains_lstrip. cbn [no_space] in Hn.
  apply andb_true_iff in Hn as [Ha _]. now destruct (is_space a).
Qed.

Lemma grade_text_formula s :
  grade_text s = contains "true" (lower s) && negb (contains "false" (lower s)).
Proof.
  unfold grade_text.
  rewrite lower_strip.
  rewrite <- (contains_strip "t" "rue" (lower s) eq_refl).
  rewrite <- (contains_strip "f" "alse" (lower s) eq_refl).
  destruct (String.eqb (strip (lower s)) "true") eqn:E.
  - apply String.eqb_eq in E. now rewrite E.
  - now destruct (contains "true" (strip (lower s)) &&
                  negb (contains "false" (strip (lower s)))).
Qed.

(** X8: The plain-text verdict depends on the tokens alone: it is true exactly
    when the reply, in lower case, contains [true] and does not contain
    [false].  Trimming and the test for equality with [true] change
    nothing: a reply and the same reply trimmed get the same verdict. *)
Theorem grade_text_tokens s :
  grade_text s = contains "true" (lower s) && negb (contains "false" (lower s)) /\
  grade_text (strip s) = grade_text s.
Proof.
  split; [apply grade_text_formula|].
  rewrite !grade_text_formula, lower_strip.
  now rewrite (contains_strip "t" "rue" (lower s) eq_refl),
              (contains_strip "f" "alse" (lower s) eq_refl).
Qed.

(** X9: The text fallback of the function-calling strategy accepts every
    reply the plain-text rule accepts; it also accepts replies the
    plain-text rule rejects, those that contain both tokens. *)
Theorem function_calling_accepts_more s :
  (grade_text s = true -> function_calling_verdict (PyStr s) = PyBool true) /\
  (contains "true" (lower s) = true -> contains "false" (lower s) = true ->
   function_calling_verdict (PyStr s) = PyBool true /\ grade_text s = false).
Proof.
  rewrite grade_text_formula. cbn [function_calling_verdict]. split.
  - intros H. apply andb_true_iff in H as [H _]. now rewrite H.
  - intros H1 H2. now rewrite H1, H2.
Qed.

End TextFacts.

(** ** Runs of [invoke]: edges, budget and trace *)

Section RunFacts.

Context {env : Environment}.

(** X10: With [max_iterations] zero or negative the loop body never runs and
    [generated_response] is never bound: [invoke] creates the directory
    [prompt_results] and raises [UnboundLocalError] at line 47, without a
    backend call, without writing a file and without touching the
    conversation state. *)
Theorem invoke_without_iterations agent st :
  (max_iterations agent <= 0)%Z ->
  exists st',
    invoke agent st = (Err (unbound_local_error "generated_response"), st') /\
    events st' = events st ++ [EMakedirs "prompt_results"] /\
    messages st' = messages st /\
    world st' = world st /\
    writes (events st') = writes (events st).
Proof.
  intros H. rewrite invoke_unfold.
  replace (Z.to_nat (max_iterations agent)) with 0 by lia.
  unfold bind at 1. cbn [loop ret].
  rewrite (finish_unbound agent (entered st) eq_refl).
  eexists. split; [reflexivity|]. cbn [events messages world with_events entered
                                       with_generated_response with_res].
  repeat split. unfold writes. rewrite filter_app. cbn [filter is_write]. apply app_nil_r.
Qed.

Lemma try_body_empty_generation agent i st st1 :
  generate agent (generator_llm agent) TheQuery NoFormat NoTools (begun i st)
    = (Ok PyNone, st1) ->
  try_body agent i st =
  (Err bare_exception,
   with_generated_response (with_res st1 (res st1 ++ generated_block i PyNone))
                           (Some (PyStr EmptyString))).
Proof.
  intros H. rewrite try_body_begun, (bind_ok _ _ _ _ _ _ _ H).
  unfold bind, set_generated_response, res_append, extract_step, raise, generated_block.
  cbn [res with_res with_generated_response messages query_obj world events
       generated_response].
  now rewrite string_app_assoc.
Qed.

(** X11: A generation without content fails the run: when [generate] returns
    [None] in an iteration, [invoke] raises the exception of line 27,
    an [Exception] whose text is empty, after recording in the trace the
    generated block, which reads [None], and the error entry, which names
    the iteration and nothing else; [generated_response] is the empty
    string, nothing more is logged and no file is written. *)
Theorem invoke_empty_generation agent j st0 st1 st2 :
  j < Z.to_nat (max_iterations agent) ->
  rejected_cycles agent 0 j (entered st0) st1 ->
  generate agent (generator_llm agent) TheQuery NoFormat NoTools (begun j st1)
    = (Ok PyNone, st2) ->
  exists failed,
    invoke agent st0 = (Err (mkExn "Exception" EmptyString), failed) /\
    res failed = (res st2
                  ++ "===== Epoch " ++ of_nat (j + 1) ++ " =====" ++ nl ++ nl
                  ++ "**Generated Response**:" ++ nl ++ nl ++ "None" ++ nl ++ nl
                  ++ nl ++ nl ++ "**Error occurred  in iteration " ++ of_nat (j + 1) ++ "**"
                  ++ nl ++ nl)%string /\
    generated_response failed = Some (PyStr EmptyString) /\
    events failed = events st2 /\
    messages failed = messages st2 /\
    writes (events failed) = writes (events st0).
Proof.
  intros Hj Hrej Hgen.
  pose proof (try_body_empty_generation _ _ _ _ Hgen) as Hb.
  pose proof (ran_trans _ _ _ _ _ (rejected_ran _ _ _ _ _ Hrej) (try_body_ran _ _ _ _ _ Hb)) as R.
  eexists. split.
  - rewrite invoke_unfold. apply bind_err.
    replace (Z.to_nat (max_iterations agent))
      with (j + S (Z.to_nat (max_iterations agent) - S j)) by lia.
    rewrite (loop_rejected _ _ _ _ _ _ Hrej). cbn [Nat.add].
    exact (loop_raise _ _ _ _ _ _ Hb).
  - cbn [res events messages generated_response with_res with_generated_response].
    split; [|repeat split; apply (ran_writes _ _ _ R)].
    unfold generated_block, error_entry. cbn [py_str bare_exception exn_text].
    rewrite !string_app_assoc. reflexivity.
Qed.

Lemma generate_string_event agent llm q fmt tools st g st' :
  generate agent llm q fmt tools st = (Ok (PyStr g), st') ->
  exists flat, events st' = events st ++ [EInvoke llm flat fmt tools (BContent (PyStr g))].
Proof.
  intros H. unfold generate in H.
  apply bind_ok_inv in H as ([] & s1 & Hu & H).
  pose proof (proj1 (quiet_update_chat_history agent q _ _ _ Hu)) as E1.
  apply bind_ok_inv in H as (flat & s2 & Hf & H).
  inversion Hf; subst s2; clear Hf.
  apply bind_ok_inv in H as (v & s3 & Hi & H).
  unfold llm_invoke in Hi.
  destruct (backend_invoke (world s1) llm flat fmt tools) as [reply w].
  destruct reply as [v0|e0]; [|discriminate]. inversion Hi; subst v0 s3; clear Hi.
  exists flat.
  destruct (py_truthy v) eqn:T; [|discriminate].
  unfold bind, append_message, ret in H. inversion H; subst.
  cbn [events with_messages with_events with_world]. now rewrite E1.
Qed.

(** The iteration a run that returns ended in, and what it generated. *)
Lemma invoke_last_iteration agent st v st' :
  invoke agent st = (Ok v, st') ->
  exists j s1 b s2,
    j < Z.to_nat (max_iterations agent) /\
    rejected_cycles agent 0 j (entered st) s1 /\
    try_body agent j s1 = (Ok b, s2) /\
    finish agent s2 = (Ok v, st').
Proof.
  rewrite invoke_unfold. intros H.
  apply bind_ok_inv in H as ([] & s2 & Hl & Hf).
  apply loop_exit_cases in Hl as [Hrej|(k & sa & Hk & Hrej & Hb)].
  - destruct (Z.to_nat (max_iterations agent)) as [|m] eqn:N.
    + inversion Hrej; subst.
      rewrite (finish_unbound agent (entered st) eq_refl) in Hf. discriminate.
    + apply rejected_snoc in Hrej as (s & Hrej & Hb). cbn [Nat.add] in Hb.
      exists m, s, false, s2. repeat split; auto.
  - cbn [Nat.add] in Hb. exists k, sa, true, s2. repeat split; auto.
Qed.

(** X12: What [invoke] returns is a string: the text extracted from the
    response the generator gave in the iteration the run ended in, a
    reply of the backend that the log of the run holds; and it does not
    contain the marker. *)
Theorem invoke_returns_marker_free_string agent st v st' :
  invoke agent st = (Ok v, st') ->
  exists j s1 g s2 flat,
    j < Z.to_nat (max_iterations agent) /\
    rejected_cycles agent 0 j (entered st) s1 /\
    generate agent (generator_llm agent) TheQuery NoFormat NoTools (begun j s1)
      = (Ok (PyStr g), s2) /\
    In (EInvoke (generator_llm agent) flat NoFormat NoTools (BContent (PyStr g)))
       (events st') /\
    v = PyStr (extract_final_answer g) /\
    contains final_answer_marker (extract_final_answer g) = false.
Proof.
  intros H.
  apply invoke_last_iteration in H as (j & s1 & b & s3 & Hj & Hrej & Hb & Hf).
  apply try_body_generated in Hb as (g & s2 & Hgen & Ha & Hg).
  destruct (generate_string_event _ _ _ _ _ _ _ _ Hgen) as (flat & He).
  apply grows_after_extract in Ha as [_ (ev & Hev & _)].
  rewrite (finish_bound _ _ _ Hg) in Hf. inversion Hf; subst.
  exists j, s1, g, s2, flat. repeat split; auto.
  - unfold finished. cbn [events with_events with_res]. rewrite Hev.
    unfold recorded. cbn [events with_generated_response with_res]. rewrite He.
    rewrite !in_app_iff. left; left; right. now left.
  - apply extract_marker_free.
Qed.

(** *** The budget of backend calls *)

Lemma within_same st st' : events st' = events st -> within 0 st st'.
Proof. intros H. exists []. rewrite app_nil_r. split; [assumption|reflexivity]. Qed.

Lemma within_trans a b st1 st2 st3 :
  within a st1 st2 -> within b st2 st3 -> within (a + b) st1 st3.
Proof.
  intros (e1 & H1 & L1) (e2 & H2 & L2). exists (e1 ++ e2). split.
  - now rewrite H2, H1, app_assoc.
  - unfold backend_calls in *. rewrite filter_app, length_app. lia.
Qed.

Lemma within_more a b st st' : a <= b -> within a st st' -> within b st st'.
Proof. intros Hab (ev & H & L). exists ev. split; [assumption|lia]. Qed.

Lemma within_calls n st st' : within n st st' -> calls st' <= calls st + n.
Proof.
  intros (ev & H & L). unfold calls, backend_calls in *.
  rewrite H, filter_app, length_app. lia.
Qed.

Lemma spends_bind A B a b n (m : M A) (k : A -> M B) :
  a + b <= n -> spends a m -> (forall x, spends b (k x)) -> spends n (bind m k).
Proof.
  intros Hn Hm Hk st r st' H.
  apply bind_inv in H as [(e & H & _)|(x & s1 & H1 & H2)].
  - apply (within_more a); [lia|]. eapply Hm; eauto.
  - apply (within_more (a + b)); [lia|].
    eapply within_trans; [eapply Hm|eapply Hk]; eauto.
Qed.

Lemma spends_same A (m : M A) :
  (forall st r st', m st = (r, st') -> events st' = events st) -> spends 0 m.
Proof. intros H st r st' E. apply within_same. eauto. Qed.

Lemma spends_more A a b (m : M A) : a <= b -> spends a m -> spends b m.
Proof. intros Hab H st r st' E. apply (within_more a); [assumption|]. eauto. Qed.

Lemma spends_emit e : is_invoke e = false -> spends 0 (emit e).
Proof.
  intros He st r st' H. inversion H; subst. exists [e]. split; [reflexivity|].
  unfold backend_calls. cbn [filter]. now rewrite He.
Qed.

Lemma spends_res_append s : spends 0 (res_append s).
Proof. apply spends_same. intros st r st' H. now inversion H. Qed.

Lemma spends_set_generated_response g : spends 0 (set_generated_response g).
Proof. apply spends_same. intros st r st' H. now inversion H. Qed.

Lemma spends_read_query q : spends 0 (read_query q).
Proof. apply spends_same. intros st r st' H. now inversion H. Qed.

Lemma spends_ret A (a : A) : spends 0 (ret a).
Proof. apply spends_same. intros st r st' H. now inversion H. Qed.

Lemma spends_raise A e : spends 0 (@raise env A e).
Proof. apply spends_same. intros st r st' H. now inversion H. Qed.

Lemma spends_llm_invoke llm flat fmt tools : spends 1 (llm_invoke llm flat fmt tools).
Proof.
  intros st r st' H. unfold llm_invoke in H.
  destruct (backend_invoke (world st) llm flat fmt tools) as [reply w].
  exists [EInvoke llm flat fmt tools reply].
  destruct reply; inversion H; subst; split; reflexivity.
Qed.

(** One call of [generate] is at most one call of the backend. *)
Lemma spends_generate agent llm q fmt tools : spends 1 (generate agent llm q fmt tools).
Proof.
  unfold generate.
  apply (spends_bind _ _ 0 1); [lia| |intros _].
  { apply spends_same. intros st r st' H.
    exact (proj1 (quiet_update_chat_history agent q _ _ _ H)). }
  apply (spends_bind _ _ 0 1); [lia| |intros flat].
  { apply spends_same. intros st r st' H. now inversion H. }
  apply (spends_bind _ _ 1 0); [lia|apply spends_llm_invoke|intros v].
  destruct (py_truthy v); [|apply spends_ret].
  apply (spends_bind _ _ 0 0); [lia| |intros _; apply spends_ret].
  apply spends_same. intros st r st' H. now inversion H.
Qed.

(** One call of [grade] is at most two calls of the backend. *)
Lemma spends_grade agent llm query generated critiqued :
  spends 2 (grade agent llm query generated critiqued).
Proof.
  unfold grade.
  apply (spends_bind _ _ 1 1); [lia| |intros returned].
  - destruct (structured_selected agent llm).
    + unfold grade_structured.
      apply (spends_bind _ _ 1 0); [lia|apply spends_generate|intros r].
      destruct r; apply spends_ret.
    + apply (spends_more _ 0 1); [lia|apply spends_ret].
  - destruct returned as [status|]; [apply (spends_more _ 0 1); [lia|apply spends_ret]|].
    destruct (function_calling_selected llm).
    + unfold grade_function_calling.
      apply (spends_bind _ _ 1 0); [lia|apply spends_generate|intros r; apply spends_ret].
    + unfold grade_plain_text.
      apply (spends_bind _ _ 1 0); [lia|apply spends_generate|intros r].
      destruct r; first [apply spends_ret | apply spends_raise].
Qed.

(** One iteration is at most four calls of the backend. *)
Lemma spends_try_body agent i : spends 4 (try_body agent i).
Proof.
  unfold try_body.
  apply (spends_bind _ _ 0 4); [lia|now apply spends_emit|intros _].
  apply (spends_bind _ _ 1 3); [lia|apply spends_generate|intros generated].
  apply (spends_bind _ _ 0 3); [lia|apply spends_set_generated_response|intros _].
  apply (spends_bind _ _ 0 3); [lia|apply spends_res_append|intros _].
  apply (spends_bind _ _ 0 3); [lia|apply spends_res_append|intros _].
  apply (spends_bind _ _ 0 3); [lia| |intros actual].
  { unfold extract_step. destruct generated;
      try apply spends_raise;
      (apply (spends_bind _ _ 0 0);
       [lia|apply spends_set_generated_response|intros _;
        first [apply spends_raise | apply spends_ret]]). }
  unfold after_extract.
  apply (spends_bind _ _ 0 3); [lia|apply spends_read_query|intros query].
  apply (spends_bind _ _ 1 2); [lia|apply spends_generate|intros critiqued].
  unfold after_critique.
  apply (spends_bind _ _ 0 2); [lia|apply spends_res_append|intros _].
  apply (spends_bind _ _ 0 2); [lia|apply spends_read_query|intros query'].
  apply (spends_bind _ _ 2 0); [lia|apply spends_grade|intros grade_output].
  apply (spends_bind _ _ 0 0); [lia|apply spends_res_append|intros _].
  destruct (py_truthy grade_output); [apply spends_ret|].
  apply (spends_bind _ _ 0 0); [lia|now apply spends_emit|intros _].
  apply (spends_bind _ _ 0 0); [lia|apply spends_res_append|intros _; apply spends_ret].
Qed.

Lemma spends_loop agent n : forall i, spends (4 * n) (loop agent n i).
Proof.
  induction n as [|n IH]; intros i st r st' H; cbn [loop] in H.
  - inversion H; subst. now apply within_same.
  - destruct (try_body agent i st) as [[[|]|e] s1] eqn:E;
      pose proof (spends_try_body agent i _ _ _ E) as W.
    + inversion H; subst. apply (within_more 4); [lia|assumption].
    + apply (within_more (4 + 4 * n)); [lia|].
      eapply within_trans; [exact W|]. eapply IH; eauto.
    + inversion H; subst. apply (within_more (4 + 0)); [lia|].
      eapply within_trans; [exact W|]. now apply within_same.
Qed.

(** X13: The budget of a run: whether [invoke] returns or raises, it has
    entered at most [max_iterations] iterations and called the backends
    at most four times that number. *)
Theorem invoke_budget agent st r st' :
  invoke agent st = (r, st') ->
  cycles (events st') <= cycles (events st) + Z.to_nat (max_iterations agent) /\
  calls st' <= calls st + 4 * Z.to_nat (max_iterations agent).
Proof.
  rewrite invoke_unfold. intros H.
  set (n := Z.to_nat (max_iterations agent)) in *.
  assert (F : forall s r' s', finish agent s = (r', s') ->
                cycles (events s') = cycles (events s) /\ calls s' = calls s).
  { intros s r' s' Hf. destruct (generated_response s) as [g|] eqn:G.
    - rewrite (finish_bound _ _ _ G) in Hf. inversion Hf; subst.
      unfold finished, calls, cycles, backend_calls. cbn [events with_events with_res].
      rewrite !filter_app. cbn [filter is_epoch is_invoke]. now rewrite !app_nil_r.
    - rewrite (finish_unbound _ _ G) in Hf. inversion Hf; subst.
      unfold calls, cycles, backend_calls. cbn [events with_events].
      rewrite !filter_app. cbn [filter is_epoch is_invoke]. now rewrite !app_nil_r. }
  assert (L : forall r' s', loop agent n 0 (entered st) = (r', s') ->
                cycles (events s') <= cycles (events st) + n /\ calls s' <= calls st + 4 * n).
  { intros r' s' Hl. split.
    - apply loop_ran in Hl as (k & Hk & R). apply ran_cycles in R.
      cbn [events entered with_generated_response with_res] in R. lia.
    - apply spends_loop, within_calls in Hl. exact Hl. }
  apply bind_inv in H as [(e & H & _)|([] & s1 & Hl & Hf)].
  - exact (L _ _ H).
  - destruct (L _ _ Hl) as [L1 L2]. destruct (F _ _ _ Hf) as [F1 F2]. lia.
Qed.

(** *** The trace *)








End RunFacts.

(** ** The class [LLM] *)

Section LLMClassFacts.

Import LLMClass.

(** X15: A constructed [LLM] is valid, and only a valid configuration
    constructs one: [LLM(provider, model_name)] returns exactly when the
    provider is listed, the model is listed for that provider and the
    environment variable named for the provider holds a non-empty value,
    which becomes [api_key]; the instance keeps the provider and the
    model it was given. *)
Theorem llm_init_valid K environ p m o :
  init K environ p m = Ok o <->
  member p (PROVIDERS K) = true /\
  exists models entry env_key v,
    lookup p (MODELS K) = Some models /\
    member m models = true /\
    lookup p (ENV_VARS K) = Some entry /\
    lookup "key_name" entry = Some env_key /\
    environ env_key = Some v /\
    String.eqb v EmptyString = false /\
    o = mkObject p m (Some v).
Proof.
  unfold init, validate_provider. cbn [provider model_name].
  split.
  - intros H.
    destruct (member p (PROVIDERS K)); [|discriminate]. cbn [negb] in H.
    split; [reflexivity|].
    destruct (lookup p (MODELS K)) as [models|] eqn:Hm; [|discriminate].
    destruct (member m models) eqn:M; [|discriminate]. cbn [negb] in H.
    destruct (lookup p (ENV_VARS K)) as [entry|] eqn:He; [|discriminate].
    destruct (lookup "key_name" entry) as [env_key|] eqn:Hk; [|discriminate].
    destruct (environ env_key) as [v|] eqn:E;
      [|destruct (lookup "prompt" entry); discriminate].
    destruct (String.eqb v EmptyString) eqn:V;
      [destruct (lookup "prompt" entry); discriminate|].
    inversion H; subst. exists models, entry, env_key, v. repeat split; auto.
  - intros (Hp & models & entry & env_key & v & Hm & Hmem & He & Hk & Hv & Hne & ->).
    now rewrite Hp, Hm, Hmem, He, Hk, Hv, Hne.
Qed.

(** X16: An environment variable that is unset or set to the empty string is
    a missing key: validation raises [EnvironmentError] with the prompt of
    the provider, and no instance is returned. *)
Theorem llm_validate_empty_key_rejected K environ self models entry env_key prompt :
  member (provider self) (PROVIDERS K) = true ->
  lookup (provider self) (MODELS K) = Some models ->
  member (model_name self) models = true ->
  lookup (provider self) (ENV_VARS K) = Some entry ->
  lookup "key_name" entry = Some env_key ->
  lookup "prompt" entry = Some prompt ->
  environ env_key = None \/ environ env_key = Some EmptyString ->
  validate_provider K environ self = Err (environment_error prompt).
Proof.
  intros Hp Hm Hmem He Hk Hpr Hv. unfold validate_provider.
  rewrite Hp, Hm, Hmem, He, Hk, Hpr. cbn [negb].
  destruct Hv as [-> | ->]; reflexivity.
Qed.

(** X17: The provider is checked first: an unlisted provider raises
    [ValueError] whatever the model and the environment, and the tables
    [MODELS] and [ENV_VARS] are not indexed with it. *)
Theorem llm_validate_provider_first K environ environ' self model :
  member (provider self) (PROVIDERS K) = false ->
  validate_provider K environ self =
    Err (value_error ("Unsupported provider. Supported providers: "
                      ++ repr_names K (PROVIDERS K))) /\
  validate_provider K environ' (mkObject (provider self) model (api_key self)) =
    validate_provider K environ self.
Proof.
  intros H. unfold validate_provider. cbn [provider]. now rewrite H.
Qed.

(** X18: [LLM.invoke] accepts a string or a list of dicts and nothing else:
    any other argument, a list that holds a message object among them,
    raises [ValueError] before [completion] is called. *)
Theorem llm_invoke_rejects_other_input (W : Type)
        (completion : W -> string -> list PyVal -> BackendResult * W) self messages w :
  (forall s, messages <> PyStr s) ->
  (forall items, messages = PyList items -> forallb is_dict items = false) ->
  invoke completion self messages w = (Err bad_input, w, []).
Proof.
  intros Hs Hl. unfold invoke, formatted_messages.
  destruct messages as [| |s|items| | | |]; try reflexivity.
  - now elim (Hs s).
  - now rewrite (Hl items eq_refl).
Qed.

(** [LLM.invoke] calls [completion] once, with the model of the instance:
    a string is sent as a single user message, a list of dicts (the empty
    list too) as it is; the content of the reply is returned and an
    exception of [completion] is raised again unchanged. *)
Theorem llm_invoke_sends (W : Type)
        (completion : W -> string -> list PyVal -> BackendResult * W) self w :
  (forall s,
     invoke completion self (PyStr s) w =
     (match fst (completion w (model_name self)
                            [PyDict [("role", PyStr "user"); ("content", PyStr s)]]) with
      | BContent res => Ok res
      | BRaise e => Err e
      end,
      snd (completion w (model_name self)
                      [PyDict [("role", PyStr "user"); ("content", PyStr s)]]),
      [(model_name self, [PyDict [("role", PyStr "user"); ("content", PyStr s)]])])) /\
  (forall items,
     forallb is_dict items = true ->
     invoke completion self (PyList items) w =
     (match fst (completion w (model_name self) items) with
      | BContent res => Ok res
      | BRaise e => Err e
      end,
      snd (completion w (model_name self) items),
      [(model_name self, items)])).
Proof.
  split.
  - intros s. unfold invoke. cbn [formatted_messages].
    now destruct (completion w (model_name self) _).
  - intros items H. unfold invoke. cbn [formatted_messages]. rewrite H.
    now destruct (completion w (model_name self) items).
Qed.

End LLMClassFacts.

Section WithLLMClass.

Context {env : Environment}.

Lemma generate_with_llm_class_fails agent llm q fmt tools
      (st : @State (LLMClass.as_backend env)) r st' :
  @generate (LLMClass.as_backend env) agent llm q fmt tools st = (r, st') ->
  exists e, r = Err e.
Proof.
  intros H. destruct r as [v|e]; [|eauto]. exfalso.
  unfold generate in H.
  apply bind_ok_inv in H as ([] & s1 & _ & H).
  apply bind_ok_inv in H as (flat & s2 & _ & H).
  apply bind_ok_inv in H as (x & s3 & Hi & _).
  unfold llm_invoke in Hi. cbn in Hi. discriminate.
Qed.

(** X19: [PromptBased] on the class [LLM] of the repository: [generate] passes
    three arguments to an [invoke] that takes one, so no call of
    [generate] returns, and a run of [invoke] never returns and never
    writes a trace file, whatever the agent and the query. *)
Theorem prompt_based_on_llm_class_raises agent
        (st : @State (LLMClass.as_backend env)) :
  (forall llm q fmt tools r st',
      @generate (LLMClass.as_backend env) agent llm q fmt tools st = (r, st') ->
      exists e, r = Err e) /\
  (forall llm p c flat fmt tools,
      system_prompt_format agent (PyStr p) = Ok c ->
      flatten (messages st ++ [UserMessage (PyStr c)]) = Ok flat ->
      fst (@generate (LLMClass.as_backend env) agent llm (Fresh (PyStr p)) fmt tools st)
      = Err LLMClass.too_many_arguments) /\
  (forall r st',
      @invoke (LLMClass.as_backend env) agent st = (r, st') ->
      (exists e, r = Err e) /\ writes (events st') = writes (events st)).
Proof.
  split; [|split].
  - intros llm q fmt tools r st' H. exact (generate_with_llm_class_fails _ _ _ _ _ _ _ _ H).
  - intros llm p c flat fmt tools Hc Hf.
    now rewrite (@generate_backend_raise (LLMClass.as_backend env)
                   agent llm (Fresh (PyStr p)) fmt tools st p c flat
                   LLMClass.too_many_arguments (world st) eq_refl Hc Hf eq_refl).
  - intros r st' H. rewrite invoke_unfold in H.
    apply bind_inv in H as [(e & H & ->)|([] & s1 & Hl & Hf)].
    + split; [eauto|]. apply loop_ran in H as (k & _ & R). exact (ran_writes _ _ _ R).
    + assert (G : generated_response s1 = None /\ s1 = entered st).
      { apply loop_exit_cases in Hl as [Hrej|(k & sa & _ & _ & Hb)].
        - destruct (Z.to_nat (max_iterations agent)) as [|m].
          + inversion Hrej; subst. now split.
          + apply rejected_snoc in Hrej as (s & _ & Hb).
            apply try_body_generated in Hb as (g & s' & Hg & _).
            apply generate_with_llm_class_fails in Hg as (e & Hg). discriminate.
        - apply try_body_generated in Hb as (g & s' & Hg & _).
          apply generate_with_llm_class_fails in Hg as (e & Hg). discriminate. }
      destruct G as [G ->]. rewrite (finish_unbound _ _ G) in Hf. inversion Hf; subst.
      split; [eauto|]. cbn [events with_events entered with_generated_response with_res].
      unfold writes. rewrite filter_app. cbn [filter is_write]. apply app_nil_r.
Qed.

End WithLLMClass.

(** ** Concrete instances of the further properties *)

Lemma update_chat_history_raise_atomic_witness :
  snd (update_chat_history demo_plain TheQuery (start (PyList []) []))
  = start (PyList []) [].
Proof.
  assert (H : update_chat_history demo_plain TheQuery (start (PyList []) [])
              = (Err index_error,
                 snd (update_chat_history demo_plain TheQuery (start (PyList []) []))))
    by (vm_compute; reflexivity).
  exact (@update_chat_history_raise_atomic scripted demo_plain TheQuery
           (start (PyList []) []) index_error _ H).
Defined.

Lemma update_chat_history_list_errors_witness :
  update_chat_history demo_plain TheQuery (start (PyList []) [])
  = (Err index_error, start (PyList []) []).
Proof.
  exact (proj1 (@update_chat_history_list_errors scripted demo_plain TheQuery
                  (start (PyList []) []) [] eq_refl) eq_refl).
Defined.

Lemma update_chat_history_user_mapping_witness :
  fst (update_chat_history demo_plain TheQuery (start user_query [])) = Ok tt.
Proof.
  exact (f_equal fst
           (proj1 (@update_chat_history_user_mapping scripted demo_plain
                     (start user_query []) [user_mapping]
                     [("role", PyStr "user"); ("content", PyStr "What is 2+2?")]
                     (PyStr "What is 2+2?") "What is 2+2?"
                     eq_refl eq_refl eq_refl eq_refl eq_refl))).
Defined.

Lemma generate_returns_none_or_content_witness :
  exists flat v,
    events (snd (generate demo_plain (generator_llm demo_plain) TheQuery NoFormat NoTools
                          (start demo_query accepting_script)))
    = events (start demo_query accepting_script)
      ++ [EInvoke (generator_llm demo_plain) flat NoFormat NoTools (BContent v)] /\
    PyStr "Final Answer: 4" = kept v /\
    (PyStr "Final Answer: 4" = PyNone \/ py_truthy (PyStr "Final Answer: 4") = true).
Proof.
  assert (H : generate demo_plain (generator_llm demo_plain) TheQuery NoFormat NoTools
                       (start demo_query accepting_script)
              = (Ok (PyStr "Final Answer: 4"),
                 snd (generate demo_plain (generator_llm demo_plain) TheQuery NoFormat NoTools
                               (start demo_query accepting_script))))
    by (vm_compute; reflexivity).
  exact (@generate_returns_none_or_content scripted demo_plain (generator_llm demo_plain)
           TheQuery NoFormat NoTools (start demo_query accepting_script) _ _ H).
Defined.

Lemma generate_backend_failure_keeps_prompt_witness :
  exists st',
    generate demo_plain (generator_llm demo_plain) TheQuery NoFormat NoTools
             (start demo_query timeout_script)
    = (Err (mkExn "TimeoutError" "backend timed out"), st') /\
    messages st' = messages (start demo_query timeout_script)
                   ++ [UserMessage (PyStr "What is 2+2?")] /\
    events st' = events (start demo_query timeout_script)
                 ++ [EInvoke (generator_llm demo_plain) [("user", PyStr "What is 2+2?")]
                             NoFormat NoTools
                             (BRaise (mkExn "TimeoutError" "backend timed out"))].
Proof.
  exact (@generate_backend_failure_keeps_prompt scripted demo_plain (generator_llm demo_plain)
           TheQuery NoFormat NoTools (start demo_query timeout_script)
           "What is 2+2?" "What is 2+2?" [("user", PyStr "What is 2+2?")]
           (mkExn "TimeoutError" "backend timed out") []
           eq_refl eq_refl eq_refl eq_refl).
Defined.


Lemma invoke_without_iterations_witness :
  exists st',
    invoke (demo_agent 0 (plain_llm "openai/gpt-4o")) (start demo_query accepting_script)
    = (Err (unbound_local_error "generated_response"), st') /\
    events st' = events (start demo_query accepting_script) ++ [EMakedirs "prompt_results"] /\
    messages st' = messages (start demo_query accepting_script) /\
    world st' = world (start demo_query accepting_script) /\
    writes (events st') = writes (events (start demo_query accepting_script)).
Proof.
  exact (@invoke_without_iterations scripted (demo_agent 0 (plain_llm "openai/gpt-4o"))
           (start demo_query accepting_script) (Z.le_refl 0)).
Defined.

Lemma invoke_empty_generation_witness :
  exists failed,
    invoke demo_plain (start demo_query empty_generation_script)
    = (Err (mkExn "Exception" EmptyString), failed) /\
    res failed = ("===== Epoch 1 =====" ++ nl ++ nl
                  ++ "**Generated Response**:" ++ nl ++ nl ++ "None" ++ nl ++ nl
                  ++ nl ++ nl ++ "**Error occurred  in iteration 1**" ++ nl ++ nl)%string /\
    generated_response failed = Some (PyStr EmptyString).
Proof.
  pose (s2 := snd (generate demo_plain (generator_llm demo_plain) TheQuery NoFormat NoTools
                            (begun 0 (entered (start demo_query empty_generation_script))))).
  assert (H : generate demo_plain (generator_llm demo_plain) TheQuery NoFormat NoTools
                       (begun 0 (entered (start demo_query empty_generation_script)))
              = (Ok PyNone, s2)) by (vm_compute; reflexivity).
  assert (Hj : 0 < Z.to_nat (max_iterations demo_plain)) by (vm_compute; lia).
  destruct (@invoke_empty_generation scripted demo_plain 0
              (start demo_query empty_generation_script)
              (entered (start demo_query empty_generation_script)) s2 Hj
              (rejected_nil demo_plain 0 _) H)
    as (failed & Hrun & Hres & Hg & _).
  exists failed. split; [exact Hrun|]. split; [|exact Hg].
  refine (eq_trans Hres _). vm_compute; reflexivity.
Defined.

Lemma invoke_returns_marker_free_string_witness :
  exists j s1 g s2 flat,
    j < Z.to_nat (max_iterations demo_plain) /\
    rejected_cycles demo_plain 0 j (entered (start demo_query accepting_script)) s1 /\
    generate demo_plain (generator_llm demo_plain) TheQuery NoFormat NoTools (begun j s1)
      = (Ok (PyStr g), s2) /\
    In (EInvoke (generator_llm demo_plain) flat NoFormat NoTools (BContent (PyStr g)))
       (events (snd (invoke demo_plain (start demo_query accepting_script)))) /\
    PyStr " 4" = PyStr (extract_final_answer g) /\
    contains final_answer_marker (extract_final_answer g) = false.
Proof.
  assert (H : invoke demo_plain (start demo_query accepting_script)
              = (Ok (PyStr " 4"), snd (invoke demo_plain (start demo_query accepting_script))))
    by (vm_compute; reflexivity).
  exact (@invoke_returns_marker_free_string scripted demo_plain
           (start demo_query accepting_script) _ _ H).
Defined.

Lemma invoke_budget_witness :
  cycles (events (snd (invoke demo_schema (start demo_query schema_cycle_script))))
  <= cycles (events (start demo_query schema_cycle_script))
     + Z.to_nat (max_iterations demo_schema) /\
  calls (snd (invoke demo_schema (start demo_query schema_cycle_script)))
  <= calls (start demo_query schema_cycle_script) + 4 * Z.to_nat (max_iterations demo_schema).
Proof.
  exact (@invoke_budget scripted demo_schema (start demo_query schema_cycle_script) _ _
           (surjective_pairing _)).
Defined.

Lemma llm_validate_empty_key_rejected_witness :
  LLMClass.validate_provider demo_constants demo_environ
    (LLMClass.mkObject "openai" "openai/gpt-4o" None)
  = Err (LLMClass.environment_error "Set OPENAI_API_KEY").
Proof.
  exact (llm_validate_empty_key_rejected demo_constants demo_environ
           (LLMClass.mkObject "openai" "openai/gpt-4o" None)
           ["openai/gpt-4o"]
           [("key_name", "OPENAI_API_KEY"); ("prompt", "Set OPENAI_API_KEY")]
           "OPENAI_API_KEY" "Set OPENAI_API_KEY"
           eq_refl eq_refl eq_refl eq_refl eq_refl eq_refl (or_intror eq_refl)).
Defined.

Lemma llm_validate_provider_first_witness :
  LLMClass.validate_provider demo_constants demo_environ
    (LLMClass.mkObject "azure" "openai/gpt-4o" None)
  = Err (LLMClass.value_error "Unsupported provider. Supported providers: together, openai").
Proof.
  exact (proj1 (llm_validate_provider_first demo_constants demo_environ demo_environ
                  (LLMClass.mkObject "azure" "openai/gpt-4o" None) "openai/gpt-4o"
                  eq_refl)).
Defined.

Lemma llm_invoke_rejects_other_input_witness :
  LLMClass.invoke silent_completion (LLMClass.mkObject "openai" "openai/gpt-4o" None)
                  (PyList [UserMessage (PyStr "hi")]) tt
  = (Err LLMClass.bad_input, tt, []).
Proof.
  refine (llm_invoke_rejects_other_input unit silent_completion
            (LLMClass.mkObject "openai" "openai/gpt-4o" None)
            (PyList [UserMessage (PyStr "hi")]) tt _ _).
  - intros s H. discriminate H.
  - intros items H. inversion H. reflexivity.
Defined.

(** The class accepts a valid configuration and an instance answers a
    string. *)
Example llm_init_demo :
  LLMClass.init demo_constants demo_environ "together"
                "together_ai/mistralai/Mixtral-8x7B-Instruct-v0.1"
  = Ok (LLMClass.mkObject "together" "together_ai/mistralai/Mixtral-8x7B-Instruct-v0.1"
                          (Some "sk-demo")).
Proof. vm_compute; reflexivity. Qed.
